(** * From-JD-to-Resume: the wizard controller

    A shallow embedding of the two React entry points of the repository
    (the component [App] of [src/unnamed/part_000] and of [src/index.tsx])
    and the properties of the step pipeline, the speech-recognition
    plumbing and the Fit Check view.

    Conventions of the embedding:
    - a JavaScript string is the list of its UTF-16 code units;
    - the React state of [App] is one record, every [setX] call is an
      update of that record, and a handler is a computation in a monad
      that threads the component state together with what the handler
      does to the outside (requests issued, console, alerts, recognizer);
    - a [try]/[catch]/[finally] block keeps the updates made before the
      exception was thrown, as JavaScript does;
    - the generation service and [JSON.parse] are parameters of the
      handlers. *)

From Stdlib Require Import List Bool Arith NArith ZArith QArith String Ascii Lia.
Import ListNotations.

Local Open Scope nat_scope.
Local Open Scope list_scope.
Set Warnings "-register-all".

(** ** JavaScript values *)

Module JS.

(** A string is its sequence of UTF-16 code units. *)
Definition JSString : Type := list N.

(** An ASCII literal of the source. *)
Definition lit (s : string) : JSString :=
  map N_of_ascii (list_ascii_of_string s).

Fixpoint str_eqb (a b : JSString) : bool :=
  match a, b with
  | [], [] => true
  | x :: a', y :: b' => N.eqb x y && str_eqb a' b'
  | _, _ => false
  end.

(** ECMAScript WhiteSpace and LineTerminator code units, the ones
    [String.prototype.trim] strips. *)
Definition isWhiteSpace (c : N) : bool :=
  ((9 <=? c) && (c <=? 13) ||
   (c =? 32) || (c =? 160) || (c =? 5760) ||
   (8192 <=? c) && (c <=? 8202) ||
   (c =? 8232) || (c =? 8233) || (c =? 8239) || (c =? 8287) ||
   (c =? 12288) || (c =? 65279))%N.

Fixpoint trimStart (s : JSString) : JSString :=
  match s with
  | [] => []
  | c :: r => if isWhiteSpace c then trimStart r else s
  end.

Definition trimEnd (s : JSString) : JSString := rev (trimStart (rev s)).

Definition trim (s : JSString) : JSString := trimEnd (trimStart s).

(** ToBoolean on a string: the empty string is the only falsy one. *)
Definition strTruthy (s : JSString) : bool :=
  match s with [] => false | _ :: _ => true end.

(** [text || fallback] where [text] may be [undefined]. *)
Definition orElse (text : option JSString) (fallback : JSString) : JSString :=
  match text with
  | Some s => if strTruthy s then s else fallback
  | None => fallback
  end.

(** A Number: a finite value (every finite double is a rational), the
    two infinities, or NaN. *)
Inductive JSNumber : Type :=
| Finite (q : Q)
| PosInfinity
| NegInfinity
| NaN.

Definition Qlt_bool (a b : Q) : bool := negb (Qle_bool b a).

(** [x < y] on Numbers; a comparison with NaN is false. *)
Definition number_lt (x y : JSNumber) : bool :=
  match x, y with
  | NaN, _ | _, NaN => false
  | Finite a, Finite b => Qlt_bool a b
  | NegInfinity, NegInfinity => false
  | NegInfinity, _ => true
  | _, NegInfinity => false
  | PosInfinity, _ => false
  | Finite _, PosInfinity => true
  end.

(** [x > y] is [y < x]. *)
Definition number_gt (x y : JSNumber) : bool := number_lt y x.

Definition num (z : Z) : JSNumber := Finite (inject_Z z).

(** The values that reach the component: what [JSON.parse] can return,
    and [undefined], which reading an absent property gives. *)
Inductive JSValue : Type :=
| JUndefined
| JNull
| JBool (b : bool)
| JNumber (n : JSNumber)
| JString (s : JSString)
| JArray (items : list JSValue)
| JObject (fields : list (JSString * JSValue)).

Inductive JSError : Type :=
| SyntaxError
| TypeError
| ApiError (reason : string).

(** The completion of an evaluation: a value, or a thrown exception. *)
Inductive Completion (A : Type) : Type :=
| Normal (a : A)
| Throw (e : JSError).
Arguments Normal {A} a.
Arguments Throw {A} e.

Fixpoint lookupField (key : JSString) (fields : list (JSString * JSValue))
  : option JSValue :=
  match fields with
  | [] => None
  | (k, v) :: rest => if str_eqb k key then Some v else lookupField key rest
  end.

(** [v.key] for a key that no prototype defines: a TypeError on [null]
    and [undefined], the own property of an object, [undefined]
    otherwise. *)
Definition getProp (v : JSValue) (key : JSString) : Completion JSValue :=
  match v with
  | JUndefined | JNull => Throw TypeError
  | JObject fields =>
      match lookupField key fields with
      | Some x => Normal x
      | None => Normal JUndefined
      end
  | _ => Normal JUndefined
  end.

(** ToBoolean. *)
Definition toBoolean (v : JSValue) : bool :=
  match v with
  | JUndefined | JNull => false
  | JBool b => b
  | JNumber (Finite q) => negb (Qeq_bool q 0)
  | JNumber NaN => false
  | JNumber _ => true
  | JString s => strTruthy s
  | JArray _ | JObject _ => true
  end.

End JS.
Import JS.

(** ** The component state and its surroundings *)

Module Wizard.

Inductive Language : Type := en | zh.

(** The text of the loading overlay. Each constructor stands for the
    pair of literals the handler chooses from by [lang]. *)
Inductive LoadingMsg : Type :=
| NoMessage
| ExtractingMsg (l : Language)
| FitCheckMsg (l : Language)
| DraftingMsg (l : Language)
| PolishingMsg (l : Language).

(** The [useState] cells of [App]. [src/index.tsx] has neither
    [loadingMsg] nor [interimText]: its handlers never touch them. The
    cells typed [AnalysisResult | null], [string] and [Critique[]] that
    receive the result of [JSON.parse] hold whatever value was parsed. *)
Record State : Type := mkState {
  step : nat;
  lang : Language;
  loading : bool;
  loadingMsg : LoadingMsg;
  rawText : JSString;
  interimText : JSString;
  isRecording : bool;
  experienceDoc : JSString;
  jd : JSString;
  analysis : JSValue;
  resumeDraft : JSValue;
  critiques : JSValue;
  finalResume : JSString
}.

(** The initial values given to [useState]. *)
Definition initialState : State :=
  {| step := 0; lang := zh; loading := false; loadingMsg := NoMessage;
     rawText := []; interimText := []; isRecording := false;
     experienceDoc := []; jd := []; analysis := JNull;
     resumeDraft := JString []; critiques := JArray [];
     finalResume := [] |}.

Definition with_step (v : nat) (s : State) : State :=
  mkState v (lang s) (loading s) (loadingMsg s) (rawText s) (interimText s)
    (isRecording s) (experienceDoc s) (jd s) (analysis s) (resumeDraft s)
    (critiques s) (finalResume s).

Definition with_lang (v : Language) (s : State) : State :=
  mkState (step s) v (loading s) (loadingMsg s) (rawText s) (interimText s)
    (isRecording s) (experienceDoc s) (jd s) (analysis s) (resumeDraft s)
    (critiques s) (finalResume s).

Definition with_loading (v : bool) (s : State) : State :=
  mkState (step s) (lang s) v (loadingMsg s) (rawText s) (interimText s)
    (isRecording s) (experienceDoc s) (jd s) (analysis s) (resumeDraft s)
    (critiques s) (finalResume s).

Definition with_loadingMsg (v : LoadingMsg) (s : State) : State :=
  mkState (step s) (lang s) (loading s) v (rawText s) (interimText s)
    (isRecording s) (experienceDoc s) (jd s) (analysis s) (resumeDraft s)
    (critiques s) (finalResume s).

Definition with_rawText (v : JSString) (s : State) : State :=
  mkState (step s) (lang s) (loading s) (loadingMsg s) v (interimText s)
    (isRecording s) (experienceDoc s) (jd s) (analysis s) (resumeDraft s)
    (critiques s) (finalResume s).

Definition with_interimText (v : JSString) (s : State) : State :=
  mkState (step s) (lang s) (loading s) (loadingMsg s) (rawText s) v
    (isRecording s) (experienceDoc s) (jd s) (analysis s) (resumeDraft s)
    (critiques s) (finalResume s).

Definition with_isRecording (v : bool) (s : State) : State :=
  mkState (step s) (lang s) (loading s) (loadingMsg s) (rawText s)
    (interimText s) v (experienceDoc s) (jd s) (analysis s) (resumeDraft s)
    (critiques s) (finalResume s).

Definition with_experienceDoc (v : JSString) (s : State) : State :=
  mkState (step s) (lang s) (loading s) (loadingMsg s) (rawText s)
    (interimText s) (isRecording s) v (jd s) (analysis s) (resumeDraft s)
    (critiques s) (finalResume s).

Definition with_jd (v : JSString) (s : State) : State :=
  mkState (step s) (lang s) (loading s) (loadingMsg s) (rawText s)
    (interimText s) (isRecording s) (experienceDoc s) v (analysis s)
    (resumeDraft s) (critiques s) (finalResume s).

Definition with_analysis (v : JSValue) (s : State) : State :=
  mkState (step s) (lang s) (loading s) (loadingMsg s) (rawText s)
    (interimText s) (isRecording s) (experienceDoc s) (jd s) v
    (resumeDraft s) (critiques s) (finalResume s).

Definition with_resumeDraft (v : JSValue) (s : State) : State :=
  mkState (step s) (lang s) (loading s) (loadingMsg s) (rawText s)
    (interimText s) (isRecording s) (experienceDoc s) (jd s) (analysis s)
    v (critiques s) (finalResume s).

Definition with_critiques (v : JSValue) (s : State) : State :=
  mkState (step s) (lang s) (loading s) (loadingMsg s) (rawText s)
    (interimText s) (isRecording s) (experienceDoc s) (jd s) (analysis s)
    (resumeDraft s) v (finalResume s).

Definition with_finalResume (v : JSString) (s : State) : State :=
  mkState (step s) (lang s) (loading s) (loadingMsg s) (rawText s)
    (interimText s) (isRecording s) (experienceDoc s) (jd s) (analysis s)
    (resumeDraft s) (critiques s) v.

(** *** Requests to the generation service *)

Inductive Model : Type :=
| gemini_3_flash_preview
| gemini_3_pro_preview.

(** The [contents] of a request: the constructor stands for the fixed
    wording of the template literal, its arguments are the values the
    template interpolates. *)
Inductive Contents : Type :=
| ExperiencePrompt (l : Language) (raw : JSString)
| FitCheckPrompt (l : Language) (experience jobDescription : JSString)
| DraftPrompt (l : Language) (experience jobDescription : JSString)
| PolishPrompt (l : Language) (draft : JSValue) (additionalInfo : JSString).

(** The two [responseSchema] objects of the source, with the field
    names their [required] arrays list. *)
Inductive Schema : Type :=
| AnalysisSchema
| DraftSchema.

Definition required (s : Schema) : list JSString :=
  match s with
  | AnalysisSchema =>
      [lit "score"; lit "dnaComparison"; lit "pros"; lit "cons";
       lit "conclusion"; lit "alternatives"]
  | DraftSchema => [lit "resumeMarkdown"; lit "critiques"]
  end.

(** Every request carries [systemInstruction: SYSTEM_PROMPT_BASE]; a
    request with a schema also carries
    [responseMimeType: "application/json"]. *)
Record Request : Type := mkRequest {
  model : Model;
  contents : Contents;
  responseSchema : option Schema
}.

(** The part of a response the handlers read: [response.text], which
    may be [undefined]. *)
Record Response : Type := mkResponse {
  text : option JSString
}.

(** The service seen from the component: the awaited call resolves with
    a response or rejects. *)
Definition GenAI : Type := Request -> Completion Response.

(** *** What a handler does to the outside *)

Inductive LogEntry : Type :=
| LoggedError (e : JSError)
| LoggedSpeechError (code : JSString).

Inductive RecognitionCall : Type :=
| RecStart
| RecStop.

(** The component state together with the trace of effects: the
    requests issued, the [console.error] lines, the [alert] dialogs, and
    the calls made on [recognitionRef.current], which is [null] where the
    browser has no speech recognition. *)
Record World : Type := mkWorld {
  ui : State;
  requests : list Request;
  console : list LogEntry;
  alerts : list string;
  recognitionRef : option (list RecognitionCall)
}.

Definition initialWorld (speech : bool) : World :=
  mkWorld initialState [] [] [] (if speech then Some [] else None).

(** *** The handler monad *)

Definition M (A : Type) : Type := World -> Completion A * World.

Definition ret {A} (a : A) : M A := fun w => (Normal a, w).

Definition bind {A B} (m : M A) (k : A -> M B) : M B :=
  fun w =>
    match m w with
    | (Normal a, w') => k a w'
    | (Throw e, w') => (Throw e, w')
    end.

Definition throw {A} (e : JSError) : M A := fun w => (Throw e, w).

(** [try { body } catch (e) { handler }]: the updates [body] made before
    throwing are kept. *)
Definition try_catch {A} (body : M A) (handler : JSError -> M A) : M A :=
  fun w =>
    match body w with
    | (Normal a, w') => (Normal a, w')
    | (Throw e, w') => handler e w'
    end.

(** [... finally { fin }]: [fin] runs on both exits. *)
Definition finally {A} (body : M A) (fin : M unit) : M A :=
  fun w =>
    match body w with
    | (r, w') =>
        match fin w' with
        | (Normal _, w'') => (r, w'')
        | (Throw e, w'') => (Throw e, w'')
        end
    end.

Definition lift {A} (c : Completion A) : M A := fun w => (c, w).

Declare Scope handler_scope.
Delimit Scope handler_scope with handler.
Notation "x <- m ;; k" := (bind m (fun x => k))
  (at level 61, m at next level, right associativity) : handler_scope.
Notation "m ;; k" := (bind m (fun _ => k))
  (at level 61, right associativity) : handler_scope.

(** The state a handler closes over: the one of the render that created
    it. The [loading] flag keeps the user from starting a second handler
    while one is pending, so this is the state at the time of the call. *)
Definition getState : M State := fun w => (Normal (ui w), w).

Definition modify (f : State -> State) : M unit :=
  fun w =>
    (Normal tt,
     mkWorld (f (ui w)) (requests w) (console w) (alerts w)
       (recognitionRef w)).

Definition setStep (v : nat) : M unit := modify (with_step v).
Definition setLang (v : Language) : M unit := modify (with_lang v).
Definition setLoading (v : bool) : M unit := modify (with_loading v).
Definition setLoadingMsg (v : LoadingMsg) : M unit :=
  modify (with_loadingMsg v).
Definition setRawText (f : JSString -> JSString) : M unit :=
  modify (fun s => with_rawText (f (rawText s)) s).
Definition setInterimText (v : JSString) : M unit :=
  modify (with_interimText v).
Definition setIsRecording (v : bool) : M unit := modify (with_isRecording v).
Definition setExperienceDoc (v : JSString) : M unit :=
  modify (with_experienceDoc v).
Definition setJd (v : JSString) : M unit := modify (with_jd v).
Definition setAnalysis (v : JSValue) : M unit := modify (with_analysis v).
Definition setResumeDraft (v : JSValue) : M unit :=
  modify (with_resumeDraft v).
Definition setCritiques (v : JSValue) : M unit := modify (with_critiques v).
Definition setFinalResume (v : JSString) : M unit :=
  modify (with_finalResume v).

(** [await ai.models.generateContent(req)]: the request is issued, and
    the call resolves or rejects. *)
Definition generateContent (ai : GenAI) (req : Request) : M Response :=
  fun w =>
    (ai req,
     mkWorld (ui w) (requests w ++ [req]) (console w) (alerts w)
       (recognitionRef w)).

Definition consoleError (l : LogEntry) : M unit :=
  fun w =>
    (Normal tt,
     mkWorld (ui w) (requests w) (console w ++ [l]) (alerts w)
       (recognitionRef w)).

Definition alert (msg : string) : M unit :=
  fun w =>
    (Normal tt,
     mkWorld (ui w) (requests w) (console w) (alerts w ++ [msg])
       (recognitionRef w)).

(** [recognitionRef.current?.start()] and [?.stop()]: nothing happens
    on a [null] reference. *)
Definition recognitionCall (c : RecognitionCall) : M unit :=
  fun w =>
    (Normal tt,
     mkWorld (ui w) (requests w) (console w) (alerts w)
       (match recognitionRef w with
        | Some calls => Some (calls ++ [c])
        | None => None
        end)).

(** The world a handler leaves behind. *)
Definition exec {A} (m : M A) (w : World) : World := snd (m w).

End Wizard.
Import Wizard.
Local Open Scope handler_scope.

(** ** Browser speech recognition events *)

Module Speech.

(** One entry of [event.results]: its [isFinal] flag and the transcript
    of its first alternative, [event.results[i][0].transcript]. *)
Record SpeechRecognitionResult : Type := mkResult {
  isFinal : bool;
  transcript : JSString
}.

Record SpeechRecognitionEvent : Type := mkEvent {
  resultIndex : nat;
  results : list SpeechRecognitionResult
}.

(** The entries the [for] loop of [onresult] visits: indices
    [resultIndex] to [results.length - 1]. *)
Definition delivered (e : SpeechRecognitionEvent)
  : list SpeechRecognitionResult :=
  skipn (resultIndex e) (results e).

End Speech.
Import Speech.

(** ** [src/unnamed/part_000] *)

Module Part000.

(** The body of the [for] loop of [onresult], on the pair
    [(finalForThisBlock, currentInterim)]. *)
Definition onresult_body (acc : JSString * JSString)
    (r : SpeechRecognitionResult) : JSString * JSString :=
  if isFinal r
  then (fst acc ++ transcript r, snd acc)
  else (fst acc, snd acc ++ transcript r).

Definition onresult (event : SpeechRecognitionEvent) : M unit :=
  let acc := fold_left onresult_body (delivered event) ([], []) in
  let finalForThisBlock := fst acc in
  let currentInterim := snd acc in
  (if strTruthy finalForThisBlock
   then setRawText (fun prev => prev ++ finalForThisBlock ++ lit " ")
   else ret tt) ;;
  setInterimText currentInterim.

Definition onerror (code : JSString) : M unit :=
  consoleError (LoggedSpeechError code) ;;
  setIsRecording false.

Definition toggleRecording : M unit :=
  st <- getState ;;
  if isRecording st
  then
    recognitionCall RecStop ;;
    setIsRecording false ;;
    setInterimText []
  else
    setInterimText [] ;;
    recognitionCall RecStart ;;
    setIsRecording true.

(** The [value] of the brainstorm textarea. *)
Definition textareaValue (st : State) : JSString :=
  rawText st ++
  (if strTruthy (interimText st)
   then lit " (" ++ interimText st ++ lit "...)"
   else []).

Section Handlers.

(** [JSON.parse]: [None] when it throws a SyntaxError. *)
Variable JSON_parse : JSString -> option JSValue.
Variable ai : GenAI.

Definition parseJSON (s : JSString) : M JSValue :=
  match JSON_parse s with
  | Some v => ret v
  | None => throw SyntaxError
  end.

Definition handleProcessBrainstorm : M unit :=
  st <- getState ;;
  if negb (strTruthy (trim (rawText st))) then ret tt else
  setLoading true ;;
  setLoadingMsg (ExtractingMsg (lang st)) ;;
  finally
    (try_catch
       (response <- generateContent ai
          (mkRequest gemini_3_flash_preview
             (ExperiencePrompt (lang st) (rawText st)) None) ;;
        setExperienceDoc (orElse (text response) []) ;;
        setStep 1)
       (fun e =>
          consoleError (LoggedError e) ;;
          alert "AI processing failed. Please try again."))
    (setLoading false).

Definition handleFitCheck : M unit :=
  st <- getState ;;
  if negb (strTruthy (trim (jd st))) then ret tt else
  setLoading true ;;
  setLoadingMsg (FitCheckMsg (lang st)) ;;
  finally
    (try_catch
       (response <- generateContent ai
          (mkRequest gemini_3_pro_preview
             (FitCheckPrompt (lang st) (experienceDoc st) (jd st))
             (Some AnalysisSchema)) ;;
        parsed <- parseJSON (orElse (text response) (lit "{}")) ;;
        setAnalysis parsed ;;
        setStep 2)
       (fun e =>
          consoleError (LoggedError e) ;;
          alert "Analysis failed."))
    (setLoading false).

Definition handleGenerateDraft : M unit :=
  st <- getState ;;
  setLoading true ;;
  setLoadingMsg (DraftingMsg (lang st)) ;;
  finally
    (try_catch
       (response <- generateContent ai
          (mkRequest gemini_3_pro_preview
             (DraftPrompt (lang st) (experienceDoc st) (jd st))
             (Some DraftSchema)) ;;
        data <- parseJSON (orElse (text response) (lit "{}")) ;;
        resumeMarkdown <- lift (getProp data (lit "resumeMarkdown")) ;;
        setResumeDraft resumeMarkdown ;;
        critiquesValue <- lift (getProp data (lit "critiques")) ;;
        setCritiques critiquesValue ;;
        setStep 3)
       (fun e =>
          consoleError (LoggedError e) ;;
          alert "Generation failed."))
    (setLoading false).

(** [additionalInfo] defaults to the empty string. *)
Definition handleFinalPolish (additionalInfo : JSString) : M unit :=
  st <- getState ;;
  setLoading true ;;
  setLoadingMsg (PolishingMsg (lang st)) ;;
  finally
    (try_catch
       (response <- generateContent ai
          (mkRequest gemini_3_pro_preview
             (PolishPrompt (lang st) (resumeDraft st) additionalInfo)
             None) ;;
        setFinalResume (orElse (text response) []) ;;
        setStep 4)
       (fun e => consoleError (LoggedError e)))
    (setLoading false).

End Handlers.

(** The [onClick] of the "Start Over" button of step 4. *)
Definition startOver : M unit :=
  setStep 0 ;;
  setRawText (fun _ => []) ;;
  setJd [] ;;
  setExperienceDoc [].

(** The [onClick] of the back button of step 4. *)
Definition backToDraft : M unit := setStep 3.

End Part000.

(** ** [src/index.tsx] *)

Module Index.

Definition onresult (event : SpeechRecognitionEvent) : M unit :=
  let transcript :=
    fold_left (fun t r => t ++ transcript r) (delivered event) [] in
  setRawText (fun prev => prev ++ lit " " ++ transcript).

Definition onerror (code : JSString) : M unit :=
  consoleError (LoggedSpeechError code) ;;
  setIsRecording false.

Definition toggleRecording : M unit :=
  st <- getState ;;
  (if isRecording st
   then recognitionCall RecStop
   else recognitionCall RecStart) ;;
  setIsRecording (negb (isRecording st)).

(** The [value] of the brainstorm textarea. *)
Definition textareaValue (st : State) : JSString := rawText st.

Section Handlers.

Variable JSON_parse : JSString -> option JSValue.
Variable ai : GenAI.

Definition parseJSON (s : JSString) : M JSValue :=
  match JSON_parse s with
  | Some v => ret v
  | None => throw SyntaxError
  end.

Definition handleProcessBrainstorm : M unit :=
  st <- getState ;;
  if negb (strTruthy (trim (rawText st))) then ret tt else
  setLoading true ;;
  finally
    (try_catch
       (response <- generateContent ai
          (mkRequest gemini_3_flash_preview
             (ExperiencePrompt (lang st) (rawText st)) None) ;;
        setExperienceDoc (orElse (text response) []) ;;
        setStep 1)
       (fun e =>
          consoleError (LoggedError e) ;;
          alert "AI processing failed. Please try again."))
    (setLoading false).

Definition handleFitCheck : M unit :=
  st <- getState ;;
  if negb (strTruthy (trim (jd st))) then ret tt else
  setLoading true ;;
  finally
    (try_catch
       (response <- generateContent ai
          (mkRequest gemini_3_pro_preview
             (FitCheckPrompt (lang st) (experienceDoc st) (jd st))
             (Some AnalysisSchema)) ;;
        parsed <- parseJSON (orElse (text response) (lit "{}")) ;;
        setAnalysis parsed ;;
        setStep 2)
       (fun e =>
          consoleError (LoggedError e) ;;
          alert "Analysis failed."))
    (setLoading false).

Definition handleGenerateDraft : M unit :=
  st <- getState ;;
  setLoading true ;;
  finally
    (try_catch
       (response <- generateContent ai
          (mkRequest gemini_3_pro_preview
             (DraftPrompt (lang st) (experienceDoc st) (jd st))
             (Some DraftSchema)) ;;
        data <- parseJSON (orElse (text response) (lit "{}")) ;;
        resumeMarkdown <- lift (getProp data (lit "resumeMarkdown")) ;;
        setResumeDraft resumeMarkdown ;;
        critiquesValue <- lift (getProp data (lit "critiques")) ;;
        setCritiques critiquesValue ;;
        setStep 3)
       (fun e =>
          consoleError (LoggedError e) ;;
          alert "Generation failed."))
    (setLoading false).

Definition handleFinalPolish (additionalInfo : JSString) : M unit :=
  st <- getState ;;
  setLoading true ;;
  finally
    (try_catch
       (response <- generateContent ai
          (mkRequest gemini_3_pro_preview
             (PolishPrompt (lang st) (resumeDraft st) additionalInfo)
             None) ;;
        setFinalResume (orElse (text response) []) ;;
        setStep 4)
       (fun e => consoleError (LoggedError e)))
    (setLoading false).

End Handlers.

(** The [onClick] of the "Create Another" button of step 4. *)
Definition createAnother : M unit :=
  setStep 0 ;;
  setRawText (fun _ => []) ;;
  setJd [] ;;
  setExperienceDoc [].

Definition backToDraft : M unit := setStep 3.

End Index.

(** ** The Fit Check Result view (step 2)

    Both files guard the view with [step === 2 && analysis], colour the
    conclusion badge by [score > 75] and [score > 50], and guard the
    alternatives block with [analysis.score < 60]. *)

Module FitCheck.

(** The interface [AnalysisResult] of the source. [conclusion] is one of
    six string literals there and a plain [Type.STRING] in the schema;
    the view only prints it. *)
Record AnalysisResult : Type := mkAnalysis {
  score : JSNumber;
  dnaComparison : list (JSString * JSString);
  pros : list JSString;
  cons : list JSString;
  conclusion : JSString;
  alternatives : list JSString
}.

(** The object an [AnalysisResult] is at run time. *)
Definition ofDnaPair (p : JSString * JSString) : JSValue :=
  JObject [(lit "dna", JString (fst p)); (lit "jd", JString (snd p))].

Definition ofAnalysisResult (a : AnalysisResult) : JSValue :=
  JObject
    [(lit "score", JNumber (score a));
     (lit "dnaComparison", JArray (map ofDnaPair (dnaComparison a)));
     (lit "pros", JArray (map JString (pros a)));
     (lit "cons", JArray (map JString (cons a)));
     (lit "conclusion", JString (conclusion a));
     (lit "alternatives", JArray (map JString (alternatives a)))].

(** Reading a run-time value back at the interface: [None] when the
    value does not have the fields and types the interface declares. *)
Definition asString (v : JSValue) : option JSString :=
  match v with
  | JString s => Some s
  | _ => None
  end.

Definition asDnaPair (v : JSValue) : option (JSString * JSString) :=
  match v with
  | JObject fields =>
      match lookupField (lit "dna") fields, lookupField (lit "jd") fields with
      | Some (JString d), Some (JString j) => Some (d, j)
      | _, _ => None
      end
  | _ => None
  end.

Fixpoint traverse {A B} (f : A -> option B) (l : list A) : option (list B) :=
  match l with
  | [] => Some []
  | x :: r =>
      match f x, traverse f r with
      | Some y, Some ys => Some (y :: ys)
      | _, _ => None
      end
  end.

Definition asArrayOf {B} (f : JSValue -> option B) (v : option JSValue)
  : option (list B) :=
  match v with
  | Some (JArray items) => traverse f items
  | _ => None
  end.

Definition asAnalysisResult (v : JSValue) : option AnalysisResult :=
  match v with
  | JObject fields =>
      match lookupField (lit "score") fields,
            asArrayOf asDnaPair (lookupField (lit "dnaComparison") fields),
            asArrayOf asString (lookupField (lit "pros") fields),
            asArrayOf asString (lookupField (lit "cons") fields),
            lookupField (lit "conclusion") fields,
            asArrayOf asString (lookupField (lit "alternatives") fields)
      with
      | Some (JNumber n), Some d, Some p, Some c, Some (JString k), Some a =>
          Some (mkAnalysis n d p c k a)
      | _, _, _, _, _, _ => None
      end
  | _ => None
  end.

(** The field names of the [required] array of a schema that an object
    lacks. *)
Definition missingFields (s : Schema) (v : JSValue) : list JSString :=
  match v with
  | JObject fields =>
      filter (fun k => match lookupField k fields with
                       | Some _ => false
                       | None => true
                       end) (required s)
  | _ => required s
  end.

Inductive Badge : Type := Green | Orange | Red.

(** What the step-2 markup shows. [alternativePaths] is the block under
    [analysis.score < 60 && (...)]: [None] when the guard is false and
    the block is absent from the page. *)
Record View : Type := mkView {
  scoreShown : JSNumber;
  badge : Badge;
  badgeText : JSString;
  comparisonRows : list (JSString * JSString);
  strengths : list JSString;
  weaknesses : list JSString;
  alternativePaths : option (list JSString)
}.

Definition view (a : AnalysisResult) : View :=
  {| scoreShown := score a;
     badge := if number_gt (score a) (num 75) then Green
              else if number_gt (score a) (num 50) then Orange
              else Red;
     badgeText := conclusion a;
     comparisonRows := dnaComparison a;
     strengths := pros a;
     weaknesses := cons a;
     alternativePaths :=
       if number_lt (score a) (num 60) then Some (alternatives a) else None |}.

(** The outcome of [{step === 2 && analysis && (...)}]. A truthy
    [analysis] that is not an [AnalysisResult] is outside the type the
    markup is written for: that case is kept apart, not given a view. *)
Inductive Rendered : Type :=
| Hidden
| Shown (v : View)
| OutsideInterface.

Definition renderFitCheckResult (st : State) : Rendered :=
  if Nat.eqb (step st) 2 && toBoolean (analysis st)
  then match asAnalysisResult (analysis st) with
       | Some a => Shown (view a)
       | None => OutsideInterface
       end
  else Hidden.

End FitCheck.
Import FitCheck.

(** ** The two sources side by side *)

Module Source.

(** The handlers of one [App] component. *)
Record App : Type := mkApp {
  onresult : SpeechRecognitionEvent -> M unit;
  toggleRecording : M unit;
  textareaValue : State -> JSString;
  handleProcessBrainstorm : GenAI -> M unit;
  handleFitCheck : (JSString -> option JSValue) -> GenAI -> M unit;
  handleGenerateDraft : (JSString -> option JSValue) -> GenAI -> M unit;
  handleFinalPolish : GenAI -> JSString -> M unit;
  restart : M unit;
  backToDraft : M unit
}.

Definition part_000 : App :=
  mkApp Part000.onresult Part000.toggleRecording Part000.textareaValue
    Part000.handleProcessBrainstorm Part000.handleFitCheck
    Part000.handleGenerateDraft Part000.handleFinalPolish
    Part000.startOver Part000.backToDraft.

Definition index_tsx : App :=
  mkApp Index.onresult Index.toggleRecording Index.textareaValue
    Index.handleProcessBrainstorm Index.handleFitCheck
    Index.handleGenerateDraft Index.handleFinalPolish
    Index.createAnother Index.backToDraft.

Definition all : list App := [part_000; index_tsx].

End Source.

(** ** Vocabulary of the properties *)

(** The artifacts a session accumulates. *)
Definition artifacts (s : State)
  : JSString * JSString * JSString * JSValue * JSValue * JSValue * JSString :=
  (rawText s, experienceDoc s, jd s, analysis s, resumeDraft s, critiques s,
   finalResume s).

(** The requests the four operations build from the state. *)
Definition extractRequest (s : State) : Request :=
  mkRequest gemini_3_flash_preview (ExperiencePrompt (lang s) (rawText s)) None.

Definition fitRequest (s : State) : Request :=
  mkRequest gemini_3_pro_preview
    (FitCheckPrompt (lang s) (experienceDoc s) (jd s)) (Some AnalysisSchema).

Definition draftRequest (s : State) : Request :=
  mkRequest gemini_3_pro_preview
    (DraftPrompt (lang s) (experienceDoc s) (jd s)) (Some DraftSchema).

Definition polishRequest (s : State) (additionalInfo : JSString) : Request :=
  mkRequest gemini_3_pro_preview
    (PolishPrompt (lang s) (resumeDraft s) additionalInfo) None.

(** The run of a handler from [w] to [w'] issued exactly the request
    [req] to the generation service. *)
Definition issued (req : Request) (w w' : World) : Prop :=
  requests w' = requests w ++ [req].

(** A text made of white space only; the empty text is one. *)
Definition blank (s : JSString) : bool := forallb isWhiteSpace s.

(** The Job Description and the artifacts of the later steps hold the
    values [useState] gave them. *)
Definition laterArtifactsUnset (s : State) : Prop :=
  jd s = [] /\ analysis s = JNull /\ resumeDraft s = JString [] /\
  critiques s = JArray [] /\ finalResume s = [].

(** The segments of an event, by kind, in the order of [event.results]. *)
Definition finalSegments (e : SpeechRecognitionEvent) : list JSString :=
  map transcript (filter isFinal (delivered e)).

Definition partialSegments (e : SpeechRecognitionEvent) : list JSString :=
  map transcript (filter (fun r => negb (isFinal r)) (delivered e)).

(** What committing the final segments of one event adds to the raw
    input: the segments in order, closed by one space. *)
Definition committedBlock (e : SpeechRecognitionEvent) : JSString :=
  let finals := List.concat (finalSegments e) in
  if strTruthy finals then finals ++ lit " " else [].

(** The handler run on a sequence of events, in order. *)
Definition runEvents (h : SpeechRecognitionEvent -> M unit)
    (es : list SpeechRecognitionEvent) (w : World) : World :=
  fold_left (fun w' e => exec (h e) w') es w.

(** *** Sample inputs *)

Module Sample.

(** A session on the Fit Check Input step with a job description. *)
Definition fitInput : World :=
  mkWorld
    (with_jd (lit "Product manager") (with_experienceDoc (lit "Built a checkout flow")
       (with_rawText (lit "Built a checkout flow, used React")
          (with_step 1 initialState))))
    [] [] [] (Some []).

(** A session on the Draft step. *)
Definition draft : World :=
  mkWorld
    (with_resumeDraft (JString (lit "# Resume")) (with_step 3 (ui fitInput)))
    [] [] [] (Some []).

(** A session on the Brainstorm step that is recording, with a partial
    segment on display. *)
Definition recording : World :=
  mkWorld
    (with_interimText (lit "used Rea") (with_isRecording true
       (with_rawText (lit "Built a checkout flow ") initialState)))
    [] [] [] (Some [RecStart]).

(** A session on the Brainstorm step with typed text. *)
Definition brainstorm : World :=
  mkWorld (with_rawText (lit "Built a checkout flow") initialState)
    [] [] [] (Some []).

(** A finished session, on the Final step. *)
Definition finished : World :=
  mkWorld
    (with_finalResume (lit "Final") (with_critiques (JArray [JNull])
       (with_analysis (JObject []) (with_step 4 (ui draft)))))
    [] [] [] (Some []).

(** A service that answers every request with the same text. *)
Definition answers (t : JSString) : GenAI :=
  fun _ => Normal (mkResponse (Some t)).

(** A service whose every call rejects. *)
Definition unreachable : GenAI := fun _ => Throw (ApiError "fetch failed").

(** [JSON.parse] on the one text the samples parse: the empty object. *)
Definition parseEmptyObject (s : JSString) : option JSValue :=
  if str_eqb s (lit "{}") then Some (JObject []) else None.

(** One utterance as the recognizer reports it with [interimResults]
    on: two partial results, then the final one. *)
Definition utterance : list SpeechRecognitionEvent :=
  [mkEvent 0 [mkResult false (lit "hel")];
   mkEvent 0 [mkResult false (lit "hello")];
   mkEvent 0 [mkResult true (lit "hello")]].

End Sample.

(** ** File upload *)

Module Upload.

(** [s.startsWith(prefix)]. *)
Fixpoint startsWith (s prefix : JSString) : bool :=
  match prefix, s with
  | [], _ => true
  | p :: prefix', c :: s' => N.eqb c p && startsWith s' prefix'
  | _ :: _, [] => false
  end.

(** [s.split(sep)] for a separator of one code unit. *)
Fixpoint split (sep : N) (s : JSString) : list JSString :=
  match s with
  | [] => [[]]
  | c :: r =>
      if N.eqb c sep then [] :: split sep r
      else match split sep r with
           | [] => [[c]]
           | piece :: pieces => (c :: piece) :: pieces
           end
  end.

Definition comma : N := 44.
Definition newline : JSString := [10%N].

(** String concatenation with a value that may be [undefined]:
    [prev + x] appends the text "undefined" then. *)
Definition toStringOpt (x : option JSString) : JSString :=
  match x with
  | Some s => s
  | None => lit "undefined"
  end.

(** What reading a file gives: the result handed to [onload] or
    returned by [file.text()], or a failure. *)
Inductive ReadOutcome : Type :=
| ReadOk (result : JSString)
| ReadFailed (e : JSError).

(** The selected file: its name and MIME type, and what the browser
    reads from it as a data URL and as text. *)
Record File : Type := mkFile {
  fileName : JSString;
  fileType : JSString;
  asDataURL : ReadOutcome;
  asText : ReadOutcome
}.

(** The text part of the vision request: the fixed wording of
    [index.tsx], or the template of [part_000] with the kind of file
    and the language it interpolates. *)
Inductive VisionPrompt : Type :=
| ImagePrompt
| FilePrompt (pdf : bool) (l : Language).

(** The request of the upload: [contents] is the pair of an
    [inlineData] part and a text part, the model is
    [gemini-3-flash-preview]. [inlineData] is [undefined] when the data
    URL has no second piece. *)
Record VisionRequest : Type := mkVision {
  inlineData : option JSString;
  mimeType : JSString;
  instruction : VisionPrompt
}.

(** [ai.models.generateContent] on such requests. *)
Definition VisionAI : Type := VisionRequest -> Completion Response.

(** An [async] callback the browser calls later: nobody awaits it, so
    an exception it throws is seen by no [catch] of the component. *)
Definition detached (callback : M unit) : M unit :=
  fun w => (Normal tt, snd (callback w)).

Definition awaitRead (r : ReadOutcome) : M JSString :=
  match r with
  | ReadOk result => ret result
  | ReadFailed e => throw e
  end.

(** [(reader.result as string).split(',')[1]]. *)
Definition base64Of (result : JSString) : option JSString :=
  nth_error (split comma result) 1.

(** *** [handleFileUpload] of [src/index.tsx] *)

Module FromIndex.

(** [reader.onload] of the image branch. *)
Definition onload (vision : VisionAI) (file : File) (result : JSString)
  : M unit :=
  let base64 := base64Of result in
  response <- lift (vision (mkVision base64 (fileType file) ImagePrompt)) ;;
  setRawText (fun prev => prev ++ newline ++ toStringOpt (text response)) ;;
  setLoading false.

(** [files] is [e.target.files], [null] or a list; the handler takes
    its first entry. In the image branch the reader calls [onload] once
    the data URL is read, and never when reading fails. *)
Definition handleFileUpload (vision : VisionAI) (files : option (list File))
  : M unit :=
  match files with
  | None | Some [] => ret tt
  | Some (file :: _) =>
      setLoading true ;;
      try_catch
        (if startsWith (fileType file) (lit "image/")
         then
           match asDataURL file with
           | ReadOk result => detached (onload vision file result)
           | ReadFailed _ => ret tt
           end
         else
           fileText <- awaitRead (asText file) ;;
           setRawText (fun prev => prev ++ newline ++ fileText) ;;
           setLoading false)
        (fun e =>
           consoleError (LoggedError e) ;;
           setLoading false)
  end.

End FromIndex.

(** *** The [onload] callbacks of [handleFileUpload] of
    [src/unnamed/part_000]

    The handler itself also sets the loading text to a message with the
    file name in it; the callbacks below are what it installs on the
    reader. *)

Module FromPart000.

(** The text of the alert of the PDF and image branch, by [lang]. *)
Definition parseFailedMessage (l : Language) : string :=
  match l with
  | zh => "AI 无法解析该文件，请尝试手动输入。"
  | en => "AI could not parse this file, please try manual input."
  end.

(** [reader.onload] of the PDF and image branch; [l] is the [lang] of
    the render that created the handler. The [console.error] line
    starts with the literal "AI extraction failed:". *)
Definition onloadVision (vision : VisionAI) (l : Language) (file : File)
    (result : JSString) : M unit :=
  let base64 := base64Of result in
  try_catch
    (response <- lift (vision
       (mkVision base64 (fileType file)
          (FilePrompt (str_eqb (fileType file) (lit "application/pdf")) l))) ;;
     setRawText (fun prev => prev ++ newline ++ orElse (text response) []))
    (fun apiErr =>
       consoleError (LoggedError apiErr) ;;
       alert (parseFailedMessage l)) ;;
  setLoading false.

(** [reader.onload] of the plain text branch. *)
Definition onloadText (result : JSString) : M unit :=
  setRawText (fun prev => prev ++ newline ++ result) ;;
  setLoading false.

End FromPart000.

End Upload.

(** ** Progress indicator, text fields and buttons *)

Module Markup.

(** [renderProgress]: the four labels the function maps over, and the
    array of Chinese labels it indexes when [lang] is [zh]. *)
Definition labels : list string :=
  ["Brainstorm"; "Fit Check"; "Diagnosis"; "Polish"]%string.

Definition labelsZh : list string :=
  ["头脑风暴"; "匹配检查"; "简历诊断"; "最终打磨"]%string.

Fixpoint indexed {A} (i : nat) (l : list A) : list (nat * A) :=
  match l with
  | [] => []
  | x :: r => (i, x) :: indexed (S i) r
  end.

(** One entry per label: the text shown under the circle,
    [lang === 'zh' ? labelsZh[i] : label], and the flag [step >= i]
    that highlights the circle and the text. *)
Definition renderProgress (st : State) : list (string * bool) :=
  map (fun il =>
         (match lang st with
          | zh => nth (fst il) labelsZh EmptyString
          | en => snd il
          end,
          Nat.leb (fst il) (step st)))
      (indexed 0 labels).

(** [onChange] of the brainstorm textarea and of the job description
    textarea: [e.target.value] replaces the cell. *)
Definition onChangeRawText (value : JSString) : M unit :=
  setRawText (fun _ => value).

Definition onChangeJd (value : JSString) : M unit := setJd value.

(** The [disabled] attribute of the two buttons that start a call. *)
Definition organizeDisabled (st : State) : bool :=
  negb (strTruthy (trim (rawText st))).

Definition fitCheckDisabled (st : State) : bool :=
  negb (strTruthy (trim (jd st))).

End Markup.

(** ** Vocabulary of the further properties *)

(** A handler run settles, for a handler whose guard is [guarded] on
    this world and whose request is [req]: it completes without an
    exception; when the guard holds the world is as it was, and when it
    does not the handler issued exactly the request [req] and has the
    loading flag down on return; and it leaves the raw input, the
    language, the recording cells and the recognizer as they were. *)
Definition settles (guarded : bool) (req : Request) (h : M unit) (w : World)
  : Prop :=
  fst (h w) = Normal tt /\
  (if guarded
   then exec h w = w
   else loading (ui (exec h w)) = false /\
        requests (exec h w) = requests w ++ [req]) /\
  rawText (ui (exec h w)) = rawText (ui w) /\
  lang (ui (exec h w)) = lang (ui w) /\
  isRecording (ui (exec h w)) = isRecording (ui w) /\
  interimText (ui (exec h w)) = interimText (ui w) /\
  recognitionRef (exec h w) = recognitionRef w.

(** *** More sample inputs *)

Module Sample2.

(** A PNG whose data URL reads fine. *)
Definition png : Upload.File :=
  Upload.mkFile (lit "cv.png") (lit "image/png")
    (Upload.ReadOk (lit "data:image/png;base64,iVBORw0KGgo="))
    (Upload.ReadOk (lit "PNG")).

(** A text file. *)
Definition notes : Upload.File :=
  Upload.mkFile (lit "notes.txt") (lit "text/plain")
    (Upload.ReadOk (lit "data:text/plain;base64,U2hpcHBlZA=="))
    (Upload.ReadOk (lit "Shipped a billing service")).

(** A vision service that answers every request with the same text,
    and one whose every call rejects. *)
Definition sees (t : JSString) : Upload.VisionAI :=
  fun _ => Normal (mkResponse (Some t)).

Definition blind : Upload.VisionAI :=
  fun _ => Throw (ApiError "fetch failed").

(** A draft response with both fields. *)
Definition draftData : JSValue :=
  JObject [(lit "resumeMarkdown", JString (lit "# Resume"));
           (lit "critiques", JArray [])].

(** An analysis below the alternatives threshold. *)
Definition weakFit : AnalysisResult :=
  mkAnalysis (num 55) [] [] [] (lit "Stretch goal") [lit "Data analyst"].

(** An event whose [resultIndex] is past its results. *)
Definition emptyEvent : SpeechRecognitionEvent :=
  mkEvent 1 [mkResult true (lit "hello")].

(** An event with one partial segment. *)
Definition partialEvent : SpeechRecognitionEvent :=
  mkEvent 0 [mkResult false (lit "hel")].

End Sample2.

(** * Properties *)

(** ** White space and [trim] *)

Lemma trimStart_blank (s : JSString) : blank s = true -> trimStart s = [].
Proof.
  induction s as [|c r IH]; simpl; [reflexivity|].
  intros H. apply andb_true_iff in H as [Hc Hr].
  rewrite Hc. auto.
Qed.

Lemma trimStart_head (s : JSString) (c : N) (r : JSString) :
  trimStart s = c :: r -> isWhiteSpace c = false.
Proof.
  induction s as [|x s IH]; simpl; [discriminate|].
  destruct (isWhiteSpace x) eqn:Hx; [exact IH|].
  intros H. injection H as -> _. exact Hx.
Qed.

Lemma trimStart_nil_blank (s : JSString) : trimStart s = [] -> blank s = true.
Proof.
  induction s as [|x s IH]; simpl; [reflexivity|].
  destruct (isWhiteSpace x); [exact IH | discriminate].
Qed.

Lemma trimStart_keeps_last (l : JSString) (c : N) :
  isWhiteSpace c = false -> trimStart (l ++ [c]) <> [].
Proof.
  intros Hc. induction l as [|x l IH]; simpl.
  - rewrite Hc. discriminate.
  - destruct (isWhiteSpace x); [exact IH | discriminate].
Qed.

(** [s.trim()] is falsy exactly when [s] is blank. *)
Lemma trim_truthy (s : JSString) : strTruthy (trim s) = negb (blank s).
Proof.
  unfold trim, trimEnd.
  destruct (blank s) eqn:Hb.
  - rewrite (trimStart_blank s Hb). reflexivity.
  - destruct (trimStart s) as [|c r] eqn:Hs.
    + apply trimStart_nil_blank in Hs. congruence.
    + pose proof (trimStart_head _ _ _ Hs) as Hc.
      simpl rev.
      pose proof (trimStart_keeps_last (rev r) c Hc) as Hne.
      destruct (trimStart (rev r ++ [c])) as [|y t] eqn:Ht; [congruence|].
      simpl. destruct (rev t ++ [y]) eqn:Hr; [|reflexivity].
      destruct (rev t); discriminate.
Qed.

(** ** Running the handlers *)

Lemma not_issued (req : Request) (w : World) : ~ issued req w w.
Proof.
  unfold issued. intros H.
  apply (f_equal (@List.length Request)) in H.
  rewrite length_app in H. simpl in H. lia.
Qed.

(** Runs a handler on a world given by its components: unfolds the
    handler and the monad under it, by need. *)
Ltac unfold_monad :=
  lazy beta iota zeta delta
    [exec bind getState finally try_catch generateContent
     consoleError alert recognitionCall lift ret throw
     setStep setLang setLoading setLoadingMsg setRawText setInterimText
     setIsRecording setExperienceDoc setJd setAnalysis setResumeDraft
     setCritiques setFinalResume modify
     extractRequest fitRequest draftRequest polishRequest issued artifacts
     ui requests console alerts recognitionRef fst snd] in *.

Ltac unfold_handlers :=
  lazy beta iota zeta delta
    [Source.handleProcessBrainstorm Source.handleFitCheck
     Source.handleGenerateDraft Source.handleFinalPolish Source.restart
     Source.backToDraft Source.toggleRecording Source.onresult
     Source.textareaValue Source.part_000 Source.index_tsx
     Part000.handleProcessBrainstorm Part000.handleFitCheck
     Part000.handleGenerateDraft Part000.handleFinalPolish
     Part000.startOver Part000.backToDraft Part000.toggleRecording
     Part000.parseJSON Part000.textareaValue
     Index.handleProcessBrainstorm Index.handleFitCheck
     Index.handleGenerateDraft Index.handleFinalPolish
     Index.createAnother Index.backToDraft Index.toggleRecording
     Index.parseJSON Index.textareaValue] in *.

(** Splits a statement about every source into one goal per file. *)
Ltac each_source H :=
  destruct H as [<- | [<- | []]].

(** ** Extract Experience *)

(** The guard of [handleProcessBrainstorm]: on a blank raw input the
    handler returns with the world as it found it. *)
Lemma extract_blank (app : Source.App) (ai : GenAI) (w : World) :
  In app Source.all ->
  blank (rawText (ui w)) = true ->
  Source.handleProcessBrainstorm app ai w = (Normal tt, w).
Proof.
  intros Hin Hb; each_source Hin; unfold_handlers;
    unfold bind, getState; rewrite trim_truthy, Hb; reflexivity.
Qed.

(** A handler run that issued the extraction request had a raw input
    that is not blank. *)
Lemma extract_issued_not_blank (app : Source.App) (ai : GenAI) (w : World) :
  In app Source.all ->
  issued (extractRequest (ui w)) w
    (exec (Source.handleProcessBrainstorm app ai) w) ->
  blank (rawText (ui w)) = false.
Proof.
  intros Hin Hi. destruct (blank (rawText (ui w))) eqn:Hb; [|reflexivity].
  unfold exec in Hi. rewrite (extract_blank app ai w Hin Hb) in Hi.
  cbn [snd] in Hi. exfalso. exact (not_issued _ _ Hi).
Qed.

(** On a raw input that is not blank the extraction request is issued. *)
Lemma extract_not_blank_issued (app : Source.App) (ai : GenAI) (w : World) :
  In app Source.all ->
  blank (rawText (ui w)) = false ->
  issued (extractRequest (ui w)) w
    (exec (Source.handleProcessBrainstorm app ai) w).
Proof.
  intros Hin Hb; destruct w as [s rq cs al rr]; cbn [ui] in *;
    each_source Hin; unfold_handlers; unfold_monad;
    rewrite trim_truthy, Hb; cbn [negb];
    destruct (ai _); reflexivity.
Qed.

(** C7. If the raw input is empty or made of white space only, Extract
    Experience is a no-op: the handler leaves the whole world as it was,
    so no request is issued to the generation service, no state cell
    changes, and a step index of 0 stays 0. *)
Theorem extract_blank_is_noop (app : Source.App) (ai : GenAI) (w : World) :
  In app Source.all ->
  blank (rawText (ui w)) = true ->
  let w' := exec (Source.handleProcessBrainstorm app ai) w in
  w' = w /\
  requests w' = requests w /\
  ui w' = ui w /\
  (step (ui w) = 0 -> step (ui w') = 0).
Proof.
  intros Hin Hb w'. subst w'. unfold exec.
  rewrite (extract_blank app ai w Hin Hb). cbn [snd]. auto.
Qed.

Lemma extract_blank_is_noop_witness :
  let w := mkWorld (with_rawText (lit "  ") initialState) [] [] [] None in
  let w' := exec (Source.handleProcessBrainstorm Source.part_000
                    Sample.unreachable) w in
  w' = w /\ requests w' = requests w /\ ui w' = ui w /\
  (step (ui w) = 0 -> step (ui w') = 0).
Proof.
  apply (extract_blank_is_noop Source.part_000 Sample.unreachable).
  - simpl. auto.
  - reflexivity.
Defined.

(** C5, the claim as stated fails: a raw input can be non-empty and
    still blank. On the raw input of two spaces, with a service that
    would answer, the handler of either file returns at its guard and
    the step index stays 0. *)
Lemma extract_nonempty_blank_stays :
  ~ (forall (ai : GenAI) (w : World) (resp : Response),
       step (ui w) = 0 ->
       rawText (ui w) <> [] ->
       ai (extractRequest (ui w)) = Normal resp ->
       step (ui (exec (Part000.handleProcessBrainstorm ai) w)) = 1)
  /\
  ~ (forall (ai : GenAI) (w : World) (resp : Response),
       step (ui w) = 0 ->
       rawText (ui w) <> [] ->
       ai (extractRequest (ui w)) = Normal resp ->
       step (ui (exec (Index.handleProcessBrainstorm ai) w)) = 1).
Proof.
  split; intros H;
    specialize (H (Sample.answers (lit "Checkout flow; React"))
                  (mkWorld (with_rawText (lit "  ") initialState) [] [] [] None)
                  (mkResponse (Some (lit "Checkout flow; React")))
                  eq_refl);
    cbn in H;
    assert (Hne : [32%N; 32%N] <> []) by discriminate;
    specialize (H Hne eq_refl); discriminate H.
Qed.

(** C5, amended. For every raw input that is not blank (it holds a
    character that is not white space), Extract Experience issues its
    one request, and when that call resolves the step index goes from 0
    to 1, that is up by exactly one, the text of the response is stored
    as the Experience Document, and the Job Description, the Fit
    Analysis, the Resume Draft, the critiques and the Final Resume are
    left as they were: unset if they were unset. *)
Theorem extract_advances_on_nonblank_input
    (app : Source.App) (ai : GenAI) (w : World) (resp : Response) :
  In app Source.all ->
  step (ui w) = 0 ->
  blank (rawText (ui w)) = false ->
  ai (extractRequest (ui w)) = Normal resp ->
  let w' := exec (Source.handleProcessBrainstorm app ai) w in
  requests w' = requests w ++ [extractRequest (ui w)] /\
  step (ui w') = S (step (ui w)) /\
  step (ui w') = 1 /\
  experienceDoc (ui w') = orElse (text resp) [] /\
  jd (ui w') = jd (ui w) /\
  analysis (ui w') = analysis (ui w) /\
  resumeDraft (ui w') = resumeDraft (ui w) /\
  critiques (ui w') = critiques (ui w) /\
  finalResume (ui w') = finalResume (ui w) /\
  (laterArtifactsUnset (ui w) -> laterArtifactsUnset (ui w')).
Proof.
  intros Hin H0 Hb Hok.
  destruct w as [s rq cs al rr]. cbn [ui] in *.
  each_source Hin; unfold_handlers; unfold_monad;
    rewrite trim_truthy, Hb; cbn [negb]; rewrite Hok;
    cbn; rewrite H0; repeat split; auto;
    match goal with
    | H : laterArtifactsUnset _ |- _ =>
        destruct H as (? & ? & ? & ? & ?); assumption
    end.
Qed.

Lemma extract_advances_on_nonblank_input_witness :
  let w := Sample.brainstorm in
  let w' := exec (Source.handleProcessBrainstorm Source.part_000
                    (Sample.answers (lit "Checkout flow; React"))) w in
  requests w' = requests w ++ [extractRequest (ui w)] /\
  step (ui w') = S (step (ui w)) /\
  step (ui w') = 1 /\
  experienceDoc (ui w') = lit "Checkout flow; React" /\
  jd (ui w') = jd (ui w) /\
  analysis (ui w') = analysis (ui w) /\
  resumeDraft (ui w') = resumeDraft (ui w) /\
  critiques (ui w') = critiques (ui w) /\
  finalResume (ui w') = finalResume (ui w) /\
  (laterArtifactsUnset (ui w) -> laterArtifactsUnset (ui w')).
Proof.
  apply (extract_advances_on_nonblank_input Source.part_000
           (Sample.answers (lit "Checkout flow; React")) Sample.brainstorm
           (mkResponse (Some (lit "Checkout flow; React")))).
  - simpl. auto.
  - reflexivity.
  - reflexivity.
  - reflexivity.
Defined.

(** ** Restart *)

(** What the restart button does to the world: four cells are reset and
    nothing else is touched. *)
Lemma restart_eq (app : Source.App) (w : World) :
  In app Source.all ->
  exec (Source.restart app) w =
  mkWorld
    (with_experienceDoc [] (with_jd [] (with_rawText [] (with_step 0 (ui w)))))
    (requests w) (console w) (alerts w) (recognitionRef w).
Proof.
  intros Hin; each_source Hin; reflexivity.
Qed.

(** C6. Restart ("Start Over" in [part_000], "Create Another" in
    [index.tsx]) resets the raw input, the job description and the
    experience document to the empty string and the step index to 0. *)
Theorem restart_resets (app : Source.App) (w : World) :
  In app Source.all ->
  let w' := exec (Source.restart app) w in
  rawText (ui w') = [] /\
  jd (ui w') = [] /\
  experienceDoc (ui w') = [] /\
  step (ui w') = 0.
Proof.
  intros Hin w'. subst w'. rewrite (restart_eq app w Hin). cbn. auto.
Qed.

Lemma restart_resets_witness :
  let w' := exec (Source.restart Source.part_000) Sample.finished in
  rawText (ui w') = [] /\ jd (ui w') = [] /\ experienceDoc (ui w') = [] /\
  step (ui w') = 0.
Proof.
  apply (restart_resets Source.part_000 Sample.finished).
  simpl. auto.
Defined.

(** C9. Restart leaves the Fit Analysis, the Resume Draft, the critique
    list and the Final Resume unchanged: the state after it is the
    state before it with the step index, the raw input, the job
    description and the experience document reset and every other cell
    as it was, so the artifacts of the previous session are still there
    in the new one. *)
Theorem restart_keeps_later_artifacts (app : Source.App) (w : World) :
  In app Source.all ->
  let w' := exec (Source.restart app) w in
  analysis (ui w') = analysis (ui w) /\
  resumeDraft (ui w') = resumeDraft (ui w) /\
  critiques (ui w') = critiques (ui w) /\
  finalResume (ui w') = finalResume (ui w) /\
  ui w' =
    with_experienceDoc [] (with_jd [] (with_rawText [] (with_step 0 (ui w)))).
Proof.
  intros Hin w'. subst w'. rewrite (restart_eq app w Hin). cbn. auto.
Qed.

Lemma restart_keeps_later_artifacts_witness :
  let w' := exec (Source.restart Source.index_tsx) Sample.finished in
  analysis (ui w') = JObject [] /\
  resumeDraft (ui w') = JString (lit "# Resume") /\
  critiques (ui w') = JArray [JNull] /\
  finalResume (ui w') = lit "Final" /\
  ui w' =
    with_experienceDoc [] (with_jd [] (with_rawText []
      (with_step 0 (ui Sample.finished)))).
Proof.
  apply (restart_keeps_later_artifacts Source.index_tsx Sample.finished).
  simpl. auto.
Defined.

(** ** Recording *)

(** C8. In a recording session with a partial segment pending, the stop
    action ([toggleRecording] while recording) does not touch the raw
    input. In [part_000], where the pending partial segment is the cell
    [interimText], the stop action clears that cell, so the segment is
    gone and the textarea shows the raw input alone; in [index.tsx],
    which has no such cell, the raw input is as untouched. In both the
    recognizer is told to stop, the recording flag is lowered and no
    request is issued. *)
Theorem stop_discards_partial (w : World) :
  isRecording (ui w) = true ->
  interimText (ui w) <> [] ->
  let p := exec Part000.toggleRecording w in
  let i := exec Index.toggleRecording w in
  let stopped :=
    match recognitionRef w with
    | Some calls => Some (calls ++ [RecStop])
    | None => None
    end in
  (rawText (ui p) = rawText (ui w) /\
   interimText (ui p) = [] /\
   Part000.textareaValue (ui p) = rawText (ui w) /\
   isRecording (ui p) = false /\
   requests p = requests w /\
   recognitionRef p = stopped) /\
  (rawText (ui i) = rawText (ui w) /\
   Index.textareaValue (ui i) = rawText (ui w) /\
   isRecording (ui i) = false /\
   requests i = requests w /\
   recognitionRef i = stopped).
Proof.
  intros Hrec _ p i stopped. subst p i stopped.
  destruct w as [s rq cs al rr]. cbn [ui] in *.
  unfold_handlers; unfold_monad; rewrite Hrec;
    cbn; rewrite ?app_nil_r; repeat split; auto.
Qed.

Lemma stop_discards_partial_witness :
  let w := Sample.recording in
  let p := exec Part000.toggleRecording w in
  let i := exec Index.toggleRecording w in
  (rawText (ui p) = lit "Built a checkout flow " /\
   interimText (ui p) = [] /\
   Part000.textareaValue (ui p) = lit "Built a checkout flow " /\
   isRecording (ui p) = false /\
   requests p = requests w /\
   recognitionRef p = Some [RecStart; RecStop]) /\
  (rawText (ui i) = lit "Built a checkout flow " /\
   Index.textareaValue (ui i) = lit "Built a checkout flow " /\
   isRecording (ui i) = false /\
   requests i = requests w /\
   recognitionRef i = Some [RecStart; RecStop]).
Proof.
  apply (stop_discards_partial Sample.recording).
  - reflexivity.
  - discriminate.
Defined.

(** A recognition error is logged and lowers the recording flag; it
    raises no alert and leaves the raw input alone. *)
Lemma recognition_error_stops_recording (code : JSString) (w : World) :
  let p := exec (Part000.onerror code) w in
  let i := exec (Index.onerror code) w in
  p = i /\
  isRecording (ui p) = false /\
  rawText (ui p) = rawText (ui w) /\
  alerts p = alerts w /\
  console p = console w ++ [LoggedSpeechError code].
Proof.
  destruct w as [s rq cs al rr]. cbn. auto.
Qed.

(** ** Compute Fit *)

Lemma fit_blank (app : Source.App) (parse : JSString -> option JSValue)
    (ai : GenAI) (w : World) :
  In app Source.all ->
  blank (jd (ui w)) = true ->
  Source.handleFitCheck app parse ai w = (Normal tt, w).
Proof.
  intros Hin Hb; each_source Hin; unfold_handlers;
    unfold bind, getState; rewrite trim_truthy, Hb; reflexivity.
Qed.

Lemma fit_issued_not_blank (app : Source.App)
    (parse : JSString -> option JSValue) (ai : GenAI) (w : World) :
  In app Source.all ->
  issued (fitRequest (ui w)) w (exec (Source.handleFitCheck app parse ai) w) ->
  blank (jd (ui w)) = false.
Proof.
  intros Hin Hi. destruct (blank (jd (ui w))) eqn:Hb; [|reflexivity].
  unfold exec in Hi. rewrite (fit_blank app parse ai w Hin Hb) in Hi.
  cbn [snd] in Hi. exfalso. exact (not_issued _ _ Hi).
Qed.

(** A value that reads as an [AnalysisResult] has every field the
    analysis schema requires. *)
Lemma analysis_has_required (j : JSValue) (a : AnalysisResult) :
  asAnalysisResult j = Some a -> missingFields AnalysisSchema j = [].
Proof.
  destruct j as [| | b | n | s | items | fields]; try discriminate.
  unfold asAnalysisResult, missingFields, asArrayOf, required.
  cbn [filter]. intros H.
  repeat match type of H with
    | context [lookupField ?k fields] =>
        destruct (lookupField k fields) as [[]|]; try discriminate H
    | context [traverse ?f ?l] =>
        destruct (traverse f l); try discriminate H
    end.
  reflexivity.
Qed.

(** An object that lacks a field the analysis schema requires is not an
    [AnalysisResult]. *)
Lemma missing_field_not_analysis (j : JSValue) :
  missingFields AnalysisSchema j <> [] -> asAnalysisResult j = None.
Proof.
  intros Hmiss. destruct (asAnalysisResult j) as [a|] eqn:E; [|reflexivity].
  apply analysis_has_required in E. contradiction.
Qed.

(** C1, as the code has it. When the Compute Fit call resolves with
    text that [JSON.parse] accepts, the handler stores the parsed value
    and moves to step 2 whatever fields the value has: a response that
    lacks a field the schema requires leaves the controller on step 2,
    not on step 1, with an analysis that is not an [AnalysisResult], and
    neither an alert nor a console line is produced. *)
Theorem fit_check_accepts_incomplete_response
    (app : Source.App) (parse : JSString -> option JSValue) (ai : GenAI)
    (w : World) (resp : Response) (j : JSValue) :
  In app Source.all ->
  step (ui w) = 1 ->
  issued (fitRequest (ui w)) w (exec (Source.handleFitCheck app parse ai) w) ->
  ai (fitRequest (ui w)) = Normal resp ->
  parse (orElse (text resp) (lit "{}")) = Some j ->
  missingFields AnalysisSchema j <> [] ->
  let w' := exec (Source.handleFitCheck app parse ai) w in
  step (ui w') = 2 /\
  analysis (ui w') = j /\
  asAnalysisResult (analysis (ui w')) = None /\
  alerts w' = alerts w /\
  console w' = console w.
Proof.
  intros Hin H1 Hi Hok Hparse Hmiss.
  pose proof (fit_issued_not_blank app parse ai w Hin Hi) as Hb.
  pose proof (missing_field_not_analysis j Hmiss) as Hbad.
  clear Hi. destruct w as [s rq cs al rr]. cbn [ui] in *.
  each_source Hin; unfold_handlers; unfold_monad;
    rewrite trim_truthy, Hb; cbn [negb]; rewrite Hok; cbn -[lit orElse];
    rewrite Hparse; cbn; auto.
Qed.

Lemma fit_check_accepts_incomplete_response_witness :
  let w := Sample.fitInput in
  let w' := exec (Source.handleFitCheck Source.part_000
                    Sample.parseEmptyObject (Sample.answers [])) w in
  step (ui w') = 2 /\
  analysis (ui w') = JObject [] /\
  asAnalysisResult (analysis (ui w')) = None /\
  alerts w' = alerts w /\
  console w' = console w.
Proof.
  apply (fit_check_accepts_incomplete_response Source.part_000
           Sample.parseEmptyObject (Sample.answers []) Sample.fitInput
           (mkResponse (Some [])) (JObject [])).
  - simpl. auto.
  - reflexivity.
  - reflexivity.
  - reflexivity.
  - reflexivity.
  - discriminate.
Defined.

(** The view of step 2 on such an analysis: the guard
    [step === 2 && analysis] passes and the markup is handed a value
    outside its interface. *)
Lemma incomplete_analysis_reaches_view (st : State) (fields : list (JSString * JSValue)) :
  step st = 2 ->
  analysis st = JObject fields ->
  missingFields AnalysisSchema (JObject fields) <> [] ->
  renderFitCheckResult st = OutsideInterface.
Proof.
  intros H2 Ha Hmiss. unfold renderFitCheckResult.
  rewrite H2, Ha. cbn [Nat.eqb toBoolean andb].
  rewrite (missing_field_not_analysis _ Hmiss). reflexivity.
Qed.

(** ** Failures of the generation call *)

(** Extract Experience: a rejected call is logged and notified, and the
    step index and the artifacts are as before. *)
Lemma extract_failure (app : Source.App) (ai : GenAI) (w : World) (e : JSError) :
  In app Source.all ->
  blank (rawText (ui w)) = false ->
  ai (extractRequest (ui w)) = Throw e ->
  let w' := exec (Source.handleProcessBrainstorm app ai) w in
  step (ui w') = step (ui w) /\
  artifacts (ui w') = artifacts (ui w) /\
  console w' = console w ++ [LoggedError e] /\
  alerts w' = alerts w ++ ["AI processing failed. Please try again."%string].
Proof.
  intros Hin Hb Hfail. destruct w as [s rq cs al rr]. cbn [ui] in *.
  each_source Hin; unfold_handlers; unfold_monad;
    rewrite trim_truthy, Hb; cbn [negb]; rewrite Hfail; cbn; auto.
Qed.

(** Compute Fit: a rejected call, or a response text that [JSON.parse]
    refuses, is logged and notified, and the step index and the
    artifacts are as before. *)
Lemma fit_failure (app : Source.App) (parse : JSString -> option JSValue)
    (ai : GenAI) (w : World) (e : JSError) :
  In app Source.all ->
  blank (jd (ui w)) = false ->
  (ai (fitRequest (ui w)) = Throw e \/
   exists resp, ai (fitRequest (ui w)) = Normal resp /\
                parse (orElse (text resp) (lit "{}")) = None /\
                e = SyntaxError) ->
  let w' := exec (Source.handleFitCheck app parse ai) w in
  step (ui w') = step (ui w) /\
  artifacts (ui w') = artifacts (ui w) /\
  console w' = console w ++ [LoggedError e] /\
  alerts w' = alerts w ++ ["Analysis failed."%string].
Proof.
  intros Hin Hb Hfail. destruct w as [s rq cs al rr]. cbn [ui] in *.
  destruct Hfail as [Hfail | (resp & Hok & Hparse & ->)];
    each_source Hin; unfold_handlers; unfold_monad;
    rewrite trim_truthy, Hb; cbn [negb];
    first [ rewrite Hfail; cbn; now auto
          | rewrite Hok; cbn -[lit orElse]; rewrite Hparse; cbn; now auto ].
Qed.

(** Draft Resume: a rejected call, a response text that [JSON.parse]
    refuses, or a parsed [null] (reading [data.resumeMarkdown] throws)
    is logged and notified, and the step index and the artifacts are as
    before. *)
Lemma draft_failure (app : Source.App) (parse : JSString -> option JSValue)
    (ai : GenAI) (w : World) (e : JSError) :
  In app Source.all ->
  (ai (draftRequest (ui w)) = Throw e \/
   exists resp, ai (draftRequest (ui w)) = Normal resp /\
     (parse (orElse (text resp) (lit "{}")) = None /\ e = SyntaxError \/
      parse (orElse (text resp) (lit "{}")) = Some JNull /\ e = TypeError)) ->
  let w' := exec (Source.handleGenerateDraft app parse ai) w in
  step (ui w') = step (ui w) /\
  artifacts (ui w') = artifacts (ui w) /\
  console w' = console w ++ [LoggedError e] /\
  alerts w' = alerts w ++ ["Generation failed."%string].
Proof.
  intros Hin Hfail. destruct w as [s rq cs al rr]. cbn [ui] in *.
  destruct Hfail as [Hfail | (resp & Hok & [[Hparse ->] | [Hparse ->]])];
    each_source Hin; unfold_handlers; unfold_monad;
    first [ rewrite Hfail; cbn; now auto
          | rewrite Hok; cbn -[lit orElse]; rewrite Hparse; cbn; now auto ].
Qed.

(** C2, as the code has it for Polish. A rejected Polish call is caught
    and logged, and the step index and the artifacts are as before, but
    no notification is raised: the [catch] of [handleFinalPolish] has no
    [alert], unlike the three other handlers ([extract_failure],
    [fit_failure], [draft_failure]). *)
Theorem polish_failure_is_silent
    (app : Source.App) (ai : GenAI) (w : World)
    (additionalInfo : JSString) (e : JSError) :
  In app Source.all ->
  ai (polishRequest (ui w) additionalInfo) = Throw e ->
  let w' := exec (Source.handleFinalPolish app ai additionalInfo) w in
  alerts w' = alerts w /\
  console w' = console w ++ [LoggedError e] /\
  step (ui w') = step (ui w) /\
  artifacts (ui w') = artifacts (ui w).
Proof.
  intros Hin Hfail. destruct w as [s rq cs al rr]. cbn [ui] in *.
  each_source Hin; unfold_handlers; unfold_monad;
    rewrite Hfail; cbn; auto.
Qed.

Lemma polish_failure_is_silent_witness :
  let w := Sample.draft in
  let w' := exec (Source.handleFinalPolish Source.part_000
                    Sample.unreachable (lit "cut load time 30%")) w in
  alerts w' = [] /\
  console w' = [LoggedError (ApiError "fetch failed")] /\
  step (ui w') = 3 /\
  artifacts (ui w') = artifacts (ui w).
Proof.
  apply (polish_failure_is_silent Source.part_000 Sample.unreachable
           Sample.draft (lit "cut load time 30%") (ApiError "fetch failed")).
  - simpl. auto.
  - reflexivity.
Defined.

(** ** Polish *)

(** C4, the claim as stated fails: in both files a Polish call that
    resolves takes a controller that is on the Draft step off it. *)
Lemma polish_leaves_draft_step :
  ~ (forall (ai : GenAI) (w : World) (additionalInfo : JSString),
       step (ui w) = 3 ->
       step (ui (exec (Part000.handleFinalPolish ai additionalInfo) w)) = 3)
  /\
  ~ (forall (ai : GenAI) (w : World) (additionalInfo : JSString),
       step (ui w) = 3 ->
       step (ui (exec (Index.handleFinalPolish ai additionalInfo) w)) = 3).
Proof.
  split; intros H;
    specialize (H (Sample.answers (lit "Final")) Sample.draft
                  (lit "cut load time 30%") eq_refl);
    discriminate H.
Qed.

(** C4, amended. Polish may be invoked with any correction text, and it
    never modifies the Resume Draft or the critiques it works from; a
    call that resolves stores the response text as the Final Resume and
    moves the controller to the Final step (4), a call that rejects
    leaves the step index and the Final Resume as they were. *)
Theorem polish_moves_to_final_on_success
    (app : Source.App) (ai : GenAI) (w : World) (additionalInfo : JSString) :
  In app Source.all ->
  let w' := exec (Source.handleFinalPolish app ai additionalInfo) w in
  issued (polishRequest (ui w) additionalInfo) w w' /\
  resumeDraft (ui w') = resumeDraft (ui w) /\
  critiques (ui w') = critiques (ui w) /\
  (forall resp, ai (polishRequest (ui w) additionalInfo) = Normal resp ->
     step (ui w') = 4 /\ finalResume (ui w') = orElse (text resp) []) /\
  (forall e, ai (polishRequest (ui w) additionalInfo) = Throw e ->
     step (ui w') = step (ui w) /\ finalResume (ui w') = finalResume (ui w)).
Proof.
  intros Hin. destruct w as [s rq cs al rr]. cbn [ui] in *.
  each_source Hin; unfold_handlers; unfold_monad;
    destruct (ai _) as [resp|e]; cbn;
    repeat split; auto; congruence.
Qed.

Lemma polish_moves_to_final_on_success_witness :
  let w := Sample.draft in
  let ai := Sample.answers (lit "Final") in
  let w' := exec (Source.handleFinalPolish Source.index_tsx ai []) w in
  issued (polishRequest (ui w) []) w w' /\
  resumeDraft (ui w') = resumeDraft (ui w) /\
  critiques (ui w') = critiques (ui w) /\
  (forall resp, ai (polishRequest (ui w) []) = Normal resp ->
     step (ui w') = 4 /\ finalResume (ui w') = orElse (text resp) []) /\
  (forall e, ai (polishRequest (ui w) []) = Throw e ->
     step (ui w') = step (ui w) /\ finalResume (ui w') = finalResume (ui w)).
Proof.
  apply (polish_moves_to_final_on_success Source.index_tsx
           (Sample.answers (lit "Final")) Sample.draft []).
  simpl. auto.
Defined.

(** Going back from the Final step and polishing again with another
    text gives the component state that polishing with that text alone
    gives: the second result replaces the first. *)
Lemma polish_again_replaces (app : Source.App) (ai : GenAI) (w : World)
    (first second : JSString) (r1 r2 : Response) :
  In app Source.all ->
  ai (polishRequest (ui w) first) = Normal r1 ->
  ai (polishRequest (ui w) second) = Normal r2 ->
  let once := exec (Source.handleFinalPolish app ai first) w in
  let back := exec (Source.backToDraft app) once in
  step (ui back) = 3 /\
  ui (exec (Source.handleFinalPolish app ai second) back) =
  ui (exec (Source.handleFinalPolish app ai second) w).
Proof.
  intros Hin H1 H2. destruct w as [s rq cs al rr]. cbn [ui] in *.
  each_source Hin; unfold_handlers; unfold_monad;
    rewrite H1; cbn; rewrite H2; cbn; auto.
Qed.

(** ** Speech recognition results *)

Lemma onresult_body_fold (l : list SpeechRecognitionResult) (a b : JSString) :
  fold_left Part000.onresult_body l (a, b) =
  (a ++ List.concat (map transcript (filter isFinal l)),
   b ++ List.concat
          (map transcript (filter (fun r => negb (isFinal r)) l))).
Proof.
  revert a b. induction l as [|r l IH]; intros a b; cbn [fold_left].
  - cbn. now rewrite !app_nil_r.
  - unfold Part000.onresult_body at 2. cbn [fst snd filter].
    destruct (isFinal r); cbn [negb map List.concat];
      rewrite IH, <- ?app_assoc; reflexivity.
Qed.

Lemma with_rawText_same (s : State) : with_rawText (rawText s) s = s.
Proof. destruct s; reflexivity. Qed.

(** [onresult] of [part_000], in one equation: the final segments of
    the event are committed as one block, the partial segments replace
    the interim text. *)
Lemma part000_onresult_eq (e : SpeechRecognitionEvent) (w : World) :
  exec (Part000.onresult e) w =
  mkWorld
    (with_interimText (List.concat (partialSegments e))
       (with_rawText (rawText (ui w) ++ committedBlock e) (ui w)))
    (requests w) (console w) (alerts w) (recognitionRef w).
Proof.
  destruct w as [s rq cs al rr].
  unfold Part000.onresult, committedBlock, finalSegments, partialSegments.
  rewrite onresult_body_fold. cbn [fst snd app].
  destruct (List.concat (map transcript (filter isFinal (delivered e))))
    as [|c fin]; unfold_monad; cbn [strTruthy].
  - rewrite app_nil_r, with_rawText_same. reflexivity.
  - reflexivity.
Qed.

(** In [part_000], over any sequence of result events, the raw input
    grows by the blocks of final segments, one per event, in the order
    of the events; each block is the final segments of the event in
    order, each once. Partial segments add nothing. *)
Lemma part000_commits_finals_in_order
    (es : list SpeechRecognitionEvent) (w : World) :
  rawText (ui (runEvents Part000.onresult es w)) =
  rawText (ui w) ++ List.concat (map committedBlock es).
Proof.
  revert w. induction es as [|e es IH]; intros w; cbn [runEvents fold_left].
  - cbn. now rewrite app_nil_r.
  - fold (runEvents Part000.onresult es (exec (Part000.onresult e) w)).
    rewrite IH, part000_onresult_eq. cbn [ui map List.concat].
    cbn. now rewrite app_assoc.
Qed.

(** In [part_000] an event without final segments leaves the raw input
    as it was, and its partial segments are what the textarea shows
    after the raw input. *)
Lemma part000_partial_not_committed (e : SpeechRecognitionEvent) (w : World) :
  finalSegments e = [] ->
  let w' := exec (Part000.onresult e) w in
  rawText (ui w') = rawText (ui w) /\
  interimText (ui w') = List.concat (partialSegments e).
Proof.
  intros Hnone w'. subst w'. rewrite part000_onresult_eq.
  unfold committedBlock. rewrite Hnone. cbn. now rewrite app_nil_r.
Qed.

Lemma fold_left_transcripts (l : list SpeechRecognitionResult) (acc : JSString) :
  fold_left (fun t r => t ++ transcript r) l acc =
  acc ++ List.concat (map transcript l).
Proof.
  revert acc. induction l as [|r l IH]; intros acc; cbn.
  - now rewrite app_nil_r.
  - rewrite IH. now rewrite app_assoc.
Qed.

(** In [part_000] the textarea shows the pending partial segments after
    the raw input, in parentheses. *)
Lemma part000_partial_displayed (e : SpeechRecognitionEvent) (w : World) :
  finalSegments e = [] ->
  List.concat (partialSegments e) <> [] ->
  Part000.textareaValue (ui (exec (Part000.onresult e) w)) =
  rawText (ui w) ++ lit " (" ++ List.concat (partialSegments e) ++ lit "...)".
Proof.
  intros Hnone Hsome. rewrite part000_onresult_eq.
  unfold committedBlock, Part000.textareaValue. rewrite Hnone.
  cbn [ui List.concat strTruthy interimText rawText with_interimText
       with_rawText].
  rewrite app_nil_r.
  destruct (List.concat (partialSegments e)); [contradiction|reflexivity].
Qed.

(** [onresult] of [index.tsx], in one equation: every segment the event
    delivers is committed, final or not. *)
Lemma index_onresult_eq (e : SpeechRecognitionEvent) (w : World) :
  rawText (ui (exec (Index.onresult e) w)) =
  rawText (ui w) ++ lit " " ++ List.concat (map transcript (delivered e)).
Proof.
  destruct w as [s rq cs al rr]. unfold Index.onresult.
  rewrite fold_left_transcripts. reflexivity.
Qed.

(** C3, as the code has it. On one utterance reported as two partial
    results and then the final one, [onresult] of [index.tsx] commits
    all three segments to the raw input, while [onresult] of [part_000]
    commits the final segment only, once. *)
Theorem index_onresult_commits_partials :
  rawText (ui (runEvents Index.onresult Sample.utterance (initialWorld true)))
    = lit " hel hello hello" /\
  rawText (ui (runEvents Part000.onresult Sample.utterance (initialWorld true)))
    = lit "hello ".
Proof. split; reflexivity. Qed.

(** ** The Fit Check Result view *)

Lemma traverse_asString (l : list JSString) :
  traverse asString (map JString l) = Some l.
Proof.
  induction l as [|x l IH]; cbn; [reflexivity|]. now rewrite IH.
Qed.

Lemma traverse_asDnaPair (l : list (JSString * JSString)) :
  traverse asDnaPair (map ofDnaPair l) = Some l.
Proof.
  induction l as [|[d j] l IH]; [reflexivity|].
  cbn [map traverse]. rewrite IH. reflexivity.
Qed.

(** Decides the comparisons of literal keys in the goal. *)
Ltac compare_keys :=
  repeat match goal with
    | |- context [str_eqb (lit ?a) (lit ?b)] =>
        let v := eval vm_compute in (str_eqb (lit a) (lit b)) in
        change (str_eqb (lit a) (lit b)) with v; cbv iota
    end.

(** An [AnalysisResult] is read back from its run-time object. *)
Lemma asAnalysisResult_of (a : AnalysisResult) :
  asAnalysisResult (ofAnalysisResult a) = Some a.
Proof.
  destruct a as [n d p c k alt].
  unfold asAnalysisResult, ofAnalysisResult, asArrayOf.
  cbn [score dnaComparison pros cons conclusion alternatives].
  cbn [lookupField]. compare_keys.
  rewrite traverse_asDnaPair, !traverse_asString. reflexivity.
Qed.

Lemma number_lt_finite (q r : Q) :
  number_lt (Finite q) (Finite r) = true <-> (q < r)%Q.
Proof.
  unfold number_lt, Qlt_bool. rewrite negb_true_iff.
  split.
  - intros H. apply Qnot_le_lt. intros Hle.
    apply Qle_bool_iff in Hle. congruence.
  - intros H. destruct (Qle_bool r q) eqn:E; [|reflexivity].
    apply Qle_bool_iff in E. exfalso. exact (Qlt_not_le _ _ H E).
Qed.

(** C10. On the Fit Check Result step, with an analysis of the declared
    interface, the view is shown and its alternatives block is present
    if and only if the score is strictly less than 60: it then lists the
    alternatives of the analysis, and for a score of 60 or more (or one
    that is not below 60 as a Number) the block is absent whatever the
    alternatives are. *)
Theorem alternatives_shown_iff_score_below_60
    (st : State) (a : AnalysisResult) :
  step st = 2 ->
  analysis st = ofAnalysisResult a ->
  renderFitCheckResult st = Shown (view a) /\
  (alternativePaths (view a) = Some (alternatives a) <->
   number_lt (score a) (num 60) = true) /\
  (alternativePaths (view a) = None <->
   number_lt (score a) (num 60) = false) /\
  (forall q : Q, score a = Finite q ->
     ((q < 60)%Q <-> alternativePaths (view a) = Some (alternatives a)) /\
     ((60 <= q)%Q -> alternativePaths (view a) = None)).
Proof.
  intros H2 Ha. split; [|split; [|split]].
  - unfold renderFitCheckResult. rewrite H2, Ha, asAnalysisResult_of.
    reflexivity.
  - unfold view; cbn [alternativePaths].
    destruct (number_lt (score a) (num 60)); split; congruence.
  - unfold view; cbn [alternativePaths].
    destruct (number_lt (score a) (num 60)); split; congruence.
  - intros q Hq. unfold view; cbn [alternativePaths]. rewrite Hq.
    unfold num. split.
    + rewrite <- (number_lt_finite q (inject_Z 60)).
      destruct (number_lt (Finite q) (Finite (inject_Z 60)));
        split; congruence.
    + intros Hge.
      destruct (number_lt (Finite q) (Finite (inject_Z 60))) eqn:E;
        [|reflexivity].
      apply number_lt_finite in E. exfalso. exact (Qlt_not_le _ _ E Hge).
Qed.

Lemma alternatives_shown_iff_score_below_60_witness :
  let a := mkAnalysis (num 59) [] [] [] (lit "Pivot needed")
             [lit "Data analyst"] in
  let st := with_analysis (ofAnalysisResult a) (with_step 2 initialState) in
  renderFitCheckResult st = Shown (view a) /\
  (alternativePaths (view a) = Some (alternatives a) <->
   number_lt (score a) (num 60) = true) /\
  (alternativePaths (view a) = None <->
   number_lt (score a) (num 60) = false) /\
  (forall q : Q, score a = Finite q ->
     ((q < 60)%Q <-> alternativePaths (view a) = Some (alternatives a)) /\
     ((60 <= q)%Q -> alternativePaths (view a) = None)).
Proof.
  apply (alternatives_shown_iff_score_below_60
           (with_analysis
              (ofAnalysisResult
                 (mkAnalysis (num 59) [] [] [] (lit "Pivot needed")
                    [lit "Data analyst"]))
              (with_step 2 initialState))
           (mkAnalysis (num 59) [] [] [] (lit "Pivot needed")
              [lit "Data analyst"])).
  - reflexivity.
  - reflexivity.
Defined.

(** The block at the boundary: shown at 59, absent at 60, whatever the
    list of alternatives. *)
Example alternatives_at_the_boundary (alts : list JSString) :
  alternativePaths (view (mkAnalysis (num 59) [] [] [] [] alts)) = Some alts /\
  alternativePaths (view (mkAnalysis (num 60) [] [] [] [] alts)) = None.
Proof. split; reflexivity. Qed.

(** * Further properties *)

(** ** The handlers when the call resolves *)

(** The state while a call of [part_000] is pending, and the state a
    handler of [part_000] leaves when its [try] block ran to its end. *)
Lemma part000_extract_resolved (ai : GenAI) (w : World) (resp : Response) :
  blank (rawText (ui w)) = false ->
  ai (extractRequest (ui w)) = Normal resp ->
  exec (Part000.handleProcessBrainstorm ai) w =
  mkWorld
    (with_loading false (with_step 1
       (with_experienceDoc (orElse (text resp) [])
          (with_loadingMsg (ExtractingMsg (lang (ui w)))
             (with_loading true (ui w))))))
    (requests w ++ [extractRequest (ui w)]) (console w) (alerts w)
    (recognitionRef w).
Proof.
  intros Hb Hok. destruct w as [s rq cs al rr]. cbn [ui] in *.
  unfold_handlers; unfold_monad. rewrite trim_truthy, Hb. cbn [negb].
  rewrite Hok. reflexivity.
Qed.

Lemma index_extract_resolved (ai : GenAI) (w : World) (resp : Response) :
  blank (rawText (ui w)) = false ->
  ai (extractRequest (ui w)) = Normal resp ->
  exec (Index.handleProcessBrainstorm ai) w =
  mkWorld
    (with_loading false (with_step 1
       (with_experienceDoc (orElse (text resp) [])
          (with_loading true (ui w)))))
    (requests w ++ [extractRequest (ui w)]) (console w) (alerts w)
    (recognitionRef w).
Proof.
  intros Hb Hok. destruct w as [s rq cs al rr]. cbn [ui] in *.
  unfold_handlers; unfold_monad. rewrite trim_truthy, Hb. cbn [negb].
  rewrite Hok. reflexivity.
Qed.

Lemma part000_fit_resolved (parse : JSString -> option JSValue) (ai : GenAI)
    (w : World) (resp : Response) (j : JSValue) :
  blank (jd (ui w)) = false ->
  ai (fitRequest (ui w)) = Normal resp ->
  parse (orElse (text resp) (lit "{}")) = Some j ->
  exec (Part000.handleFitCheck parse ai) w =
  mkWorld
    (with_loading false (with_step 2 (with_analysis j
       (with_loadingMsg (FitCheckMsg (lang (ui w)))
          (with_loading true (ui w))))))
    (requests w ++ [fitRequest (ui w)]) (console w) (alerts w)
    (recognitionRef w).
Proof.
  intros Hb Hok Hparse. destruct w as [s rq cs al rr]. cbn [ui] in *.
  unfold_handlers; unfold_monad. rewrite trim_truthy, Hb. cbn [negb].
  rewrite Hok. cbv iota beta. rewrite Hparse. reflexivity.
Qed.

Lemma index_fit_resolved (parse : JSString -> option JSValue) (ai : GenAI)
    (w : World) (resp : Response) (j : JSValue) :
  blank (jd (ui w)) = false ->
  ai (fitRequest (ui w)) = Normal resp ->
  parse (orElse (text resp) (lit "{}")) = Some j ->
  exec (Index.handleFitCheck parse ai) w =
  mkWorld
    (with_loading false (with_step 2 (with_analysis j
       (with_loading true (ui w)))))
    (requests w ++ [fitRequest (ui w)]) (console w) (alerts w)
    (recognitionRef w).
Proof.
  intros Hb Hok Hparse. destruct w as [s rq cs al rr]. cbn [ui] in *.
  unfold_handlers; unfold_monad. rewrite trim_truthy, Hb. cbn [negb].
  rewrite Hok. cbv iota beta. rewrite Hparse. reflexivity.
Qed.

Lemma part000_draft_resolved (parse : JSString -> option JSValue) (ai : GenAI)
    (w : World) (resp : Response) (data m c : JSValue) :
  ai (draftRequest (ui w)) = Normal resp ->
  parse (orElse (text resp) (lit "{}")) = Some data ->
  getProp data (lit "resumeMarkdown") = Normal m ->
  getProp data (lit "critiques") = Normal c ->
  exec (Part000.handleGenerateDraft parse ai) w =
  mkWorld
    (with_loading false (with_step 3 (with_critiques c (with_resumeDraft m
       (with_loadingMsg (DraftingMsg (lang (ui w)))
          (with_loading true (ui w)))))))
    (requests w ++ [draftRequest (ui w)]) (console w) (alerts w)
    (recognitionRef w).
Proof.
  intros Hok Hparse Hm Hc. destruct w as [s rq cs al rr]. cbn [ui] in *.
  unfold_handlers; unfold_monad.
  rewrite Hok. cbv iota beta. rewrite Hparse. cbv iota beta.
  rewrite Hm. cbv iota beta. rewrite Hc. reflexivity.
Qed.

Lemma index_draft_resolved (parse : JSString -> option JSValue) (ai : GenAI)
    (w : World) (resp : Response) (data m c : JSValue) :
  ai (draftRequest (ui w)) = Normal resp ->
  parse (orElse (text resp) (lit "{}")) = Some data ->
  getProp data (lit "resumeMarkdown") = Normal m ->
  getProp data (lit "critiques") = Normal c ->
  exec (Index.handleGenerateDraft parse ai) w =
  mkWorld
    (with_loading false (with_step 3 (with_critiques c (with_resumeDraft m
       (with_loading true (ui w))))))
    (requests w ++ [draftRequest (ui w)]) (console w) (alerts w)
    (recognitionRef w).
Proof.
  intros Hok Hparse Hm Hc. destruct w as [s rq cs al rr]. cbn [ui] in *.
  unfold_handlers; unfold_monad.
  rewrite Hok. cbv iota beta. rewrite Hparse. cbv iota beta.
  rewrite Hm. cbv iota beta. rewrite Hc. reflexivity.
Qed.

Lemma part000_polish_resolved (ai : GenAI) (w : World)
    (additionalInfo : JSString) (resp : Response) :
  ai (polishRequest (ui w) additionalInfo) = Normal resp ->
  exec (Part000.handleFinalPolish ai additionalInfo) w =
  mkWorld
    (with_loading false (with_step 4
       (with_finalResume (orElse (text resp) [])
          (with_loadingMsg (PolishingMsg (lang (ui w)))
             (with_loading true (ui w))))))
    (requests w ++ [polishRequest (ui w) additionalInfo]) (console w)
    (alerts w) (recognitionRef w).
Proof.
  intros Hok. destruct w as [s rq cs al rr]. cbn [ui] in *.
  unfold_handlers; unfold_monad. rewrite Hok. reflexivity.
Qed.

Lemma index_polish_resolved (ai : GenAI) (w : World)
    (additionalInfo : JSString) (resp : Response) :
  ai (polishRequest (ui w) additionalInfo) = Normal resp ->
  exec (Index.handleFinalPolish ai additionalInfo) w =
  mkWorld
    (with_loading false (with_step 4
       (with_finalResume (orElse (text resp) [])
          (with_loading true (ui w)))))
    (requests w ++ [polishRequest (ui w) additionalInfo]) (console w)
    (alerts w) (recognitionRef w).
Proof.
  intros Hok. destruct w as [s rq cs al rr]. cbn [ui] in *.
  unfold_handlers; unfold_monad. rewrite Hok. reflexivity.
Qed.

(** ** Draft Resume *)

(** When the Draft call resolves with text that parses to a value whose
    two properties can be read, the handler stores what
    [data.resumeMarkdown] and [data.critiques] give, moves to step 3,
    issues exactly its one request, raises no alert and logs nothing,
    and leaves the other artifacts as they were. *)
Theorem draft_stores_both_fields
    (app : Source.App) (parse : JSString -> option JSValue) (ai : GenAI)
    (w : World) (resp : Response) (data m c : JSValue) :
  In app Source.all ->
  ai (draftRequest (ui w)) = Normal resp ->
  parse (orElse (text resp) (lit "{}")) = Some data ->
  getProp data (lit "resumeMarkdown") = Normal m ->
  getProp data (lit "critiques") = Normal c ->
  let w' := exec (Source.handleGenerateDraft app parse ai) w in
  step (ui w') = 3 /\
  resumeDraft (ui w') = m /\
  critiques (ui w') = c /\
  loading (ui w') = false /\
  requests w' = requests w ++ [draftRequest (ui w)] /\
  alerts w' = alerts w /\
  console w' = console w /\
  rawText (ui w') = rawText (ui w) /\
  experienceDoc (ui w') = experienceDoc (ui w) /\
  jd (ui w') = jd (ui w) /\
  analysis (ui w') = analysis (ui w) /\
  finalResume (ui w') = finalResume (ui w).
Proof.
  intros Hin Hok Hparse Hm Hc w'. subst w'.
  each_source Hin; cbn [Source.handleGenerateDraft Source.part_000
                        Source.index_tsx].
  - rewrite (part000_draft_resolved parse ai w resp data m c Hok Hparse Hm Hc).
    cbn. repeat split; reflexivity.
  - rewrite (index_draft_resolved parse ai w resp data m c Hok Hparse Hm Hc).
    cbn. repeat split; reflexivity.
Qed.

Lemma draft_stores_both_fields_witness :
  let w := Sample.fitInput in
  let parse := fun _ : JSString => Some Sample2.draftData in
  let w' := exec (Source.handleGenerateDraft Source.part_000 parse
                    (Sample.answers (lit "{...}"))) w in
  step (ui w') = 3 /\
  resumeDraft (ui w') = JString (lit "# Resume") /\
  critiques (ui w') = JArray [] /\
  loading (ui w') = false /\
  requests w' = requests w ++ [draftRequest (ui w)] /\
  alerts w' = alerts w /\
  console w' = console w /\
  rawText (ui w') = rawText (ui w) /\
  experienceDoc (ui w') = experienceDoc (ui w) /\
  jd (ui w') = jd (ui w) /\
  analysis (ui w') = analysis (ui w) /\
  finalResume (ui w') = finalResume (ui w).
Proof.
  apply (draft_stores_both_fields Source.part_000
           (fun _ : JSString => Some Sample2.draftData)
           (Sample.answers (lit "{...}")) Sample.fitInput
           (mkResponse (Some (lit "{...}"))) Sample2.draftData
           (JString (lit "# Resume")) (JArray [])).
  - simpl. auto.
  - reflexivity.
  - reflexivity.
  - reflexivity.
  - reflexivity.
Defined.

(** Missing keys are not noticed by the Draft handler: when the
    response parses to an object that has neither [resumeMarkdown] nor
    [critiques] (the fallback text "{}" of an empty response is one),
    both cells become [undefined], the controller still moves to step 3
    and no alert is raised. *)
Theorem draft_missing_fields_become_undefined
    (app : Source.App) (parse : JSString -> option JSValue) (ai : GenAI)
    (w : World) (resp : Response) (fields : list (JSString * JSValue)) :
  In app Source.all ->
  ai (draftRequest (ui w)) = Normal resp ->
  parse (orElse (text resp) (lit "{}")) = Some (JObject fields) ->
  missingFields DraftSchema (JObject fields) = required DraftSchema ->
  let w' := exec (Source.handleGenerateDraft app parse ai) w in
  step (ui w') = 3 /\
  resumeDraft (ui w') = JUndefined /\
  critiques (ui w') = JUndefined /\
  alerts w' = alerts w /\
  console w' = console w.
Proof.
  intros Hin Hok Hparse Hmiss.
  assert (Hm : getProp (JObject fields) (lit "resumeMarkdown") = Normal JUndefined
               /\ getProp (JObject fields) (lit "critiques") = Normal JUndefined).
  { unfold getProp. unfold missingFields, required in Hmiss. cbn [filter] in Hmiss.
    destruct (lookupField (lit "resumeMarkdown") fields);
      destruct (lookupField (lit "critiques") fields);
      try discriminate Hmiss; auto. }
  destruct Hm as [Hm Hc]. intros w'. subst w'.
  each_source Hin; cbn [Source.handleGenerateDraft Source.part_000
                        Source.index_tsx].
  - rewrite (part000_draft_resolved parse ai w resp _ _ _ Hok Hparse Hm Hc).
    cbn. repeat split; reflexivity.
  - rewrite (index_draft_resolved parse ai w resp _ _ _ Hok Hparse Hm Hc).
    cbn. repeat split; reflexivity.
Qed.

Lemma draft_missing_fields_become_undefined_witness :
  let w := Sample.fitInput in
  let w' := exec (Source.handleGenerateDraft Source.part_000
                    Sample.parseEmptyObject (Sample.answers [])) w in
  step (ui w') = 3 /\
  resumeDraft (ui w') = JUndefined /\
  critiques (ui w') = JUndefined /\
  alerts w' = alerts w /\
  console w' = console w.
Proof.
  apply (draft_missing_fields_become_undefined Source.part_000
           Sample.parseEmptyObject (Sample.answers []) Sample.fitInput
           (mkResponse (Some [])) []).
  - simpl. auto.
  - reflexivity.
  - reflexivity.
  - reflexivity.
Defined.

Lemma draft_failure_witness :
  let w := Sample.fitInput in
  let w' := exec (Source.handleGenerateDraft Source.index_tsx
                    Sample.parseEmptyObject (Sample.answers (lit "not json")))
              w in
  step (ui w') = step (ui w) /\
  artifacts (ui w') = artifacts (ui w) /\
  console w' = console w ++ [LoggedError SyntaxError] /\
  alerts w' = alerts w ++ ["Generation failed."%string].
Proof.
  apply (draft_failure Source.index_tsx Sample.parseEmptyObject
           (Sample.answers (lit "not json")) Sample.fitInput SyntaxError).
  - simpl. auto.
  - right. exists (mkResponse (Some (lit "not json"))).
    split; [reflexivity|]. left. split; reflexivity.
Defined.

Lemma extract_failure_witness :
  let w := Sample.brainstorm in
  let w' := exec (Source.handleProcessBrainstorm Source.part_000
                    Sample.unreachable) w in
  step (ui w') = step (ui w) /\
  artifacts (ui w') = artifacts (ui w) /\
  console w' = console w ++ [LoggedError (ApiError "fetch failed")] /\
  alerts w' = alerts w ++ ["AI processing failed. Please try again."%string].
Proof.
  apply (extract_failure Source.part_000 Sample.unreachable Sample.brainstorm
           (ApiError "fetch failed")).
  - simpl. auto.
  - reflexivity.
  - reflexivity.
Defined.

Lemma fit_failure_witness :
  let w := Sample.fitInput in
  let w' := exec (Source.handleFitCheck Source.part_000
                    Sample.parseEmptyObject (Sample.answers (lit "<html>")))
              w in
  step (ui w') = step (ui w) /\
  artifacts (ui w') = artifacts (ui w) /\
  console w' = console w ++ [LoggedError SyntaxError] /\
  alerts w' = alerts w ++ ["Analysis failed."%string].
Proof.
  apply (fit_failure Source.part_000 Sample.parseEmptyObject
           (Sample.answers (lit "<html>")) Sample.fitInput SyntaxError).
  - simpl. auto.
  - reflexivity.
  - right. exists (mkResponse (Some (lit "<html>"))).
    repeat split; reflexivity.
Defined.

(** ** Compute Fit, continued *)

(** The guard of [handleFitCheck]: on a job description that is empty
    or white space only the handler is a no-op. The world is as it was:
    no request is issued, the loading flag is not raised, and the
    controller stays on its step. *)
Theorem fit_blank_is_noop (app : Source.App)
    (parse : JSString -> option JSValue) (ai : GenAI) (w : World) :
  In app Source.all ->
  blank (jd (ui w)) = true ->
  let w' := exec (Source.handleFitCheck app parse ai) w in
  w' = w /\
  requests w' = requests w /\
  step (ui w') = step (ui w) /\
  analysis (ui w') = analysis (ui w).
Proof.
  intros Hin Hb w'. subst w'. unfold exec.
  rewrite (fit_blank app parse ai w Hin Hb). cbn [snd]. auto.
Qed.

Lemma fit_blank_is_noop_witness :
  let w := Sample.brainstorm in
  let w' := exec (Source.handleFitCheck Source.index_tsx
                    Sample.parseEmptyObject Sample.unreachable) w in
  w' = w /\
  requests w' = requests w /\
  step (ui w') = step (ui w) /\
  analysis (ui w') = analysis (ui w).
Proof.
  apply (fit_blank_is_noop Source.index_tsx Sample.parseEmptyObject
           Sample.unreachable Sample.brainstorm).
  - simpl. auto.
  - reflexivity.
Defined.

(** When the Fit call resolves with text that parses to the object of
    an [AnalysisResult], the controller is on step 2 with that analysis
    and the step-2 markup shows its view; no alert is raised. *)
Theorem fit_check_shows_analysis
    (app : Source.App) (parse : JSString -> option JSValue) (ai : GenAI)
    (w : World) (resp : Response) (a : AnalysisResult) :
  In app Source.all ->
  blank (jd (ui w)) = false ->
  ai (fitRequest (ui w)) = Normal resp ->
  parse (orElse (text resp) (lit "{}")) = Some (ofAnalysisResult a) ->
  let w' := exec (Source.handleFitCheck app parse ai) w in
  step (ui w') = 2 /\
  analysis (ui w') = ofAnalysisResult a /\
  renderFitCheckResult (ui w') = Shown (view a) /\
  requests w' = requests w ++ [fitRequest (ui w)] /\
  alerts w' = alerts w /\
  console w' = console w.
Proof.
  intros Hin Hb Hok Hparse w'. subst w'.
  each_source Hin; cbn [Source.handleFitCheck Source.part_000
                        Source.index_tsx].
  - rewrite (part000_fit_resolved parse ai w resp _ Hb Hok Hparse).
    unfold renderFitCheckResult.
    cbn [ui requests alerts console step analysis with_loading with_step
         with_analysis Nat.eqb].
    rewrite asAnalysisResult_of. cbn. repeat split; reflexivity.
  - rewrite (index_fit_resolved parse ai w resp _ Hb Hok Hparse).
    unfold renderFitCheckResult.
    cbn [ui requests alerts console step analysis with_loading with_step
         with_analysis Nat.eqb].
    rewrite asAnalysisResult_of. cbn. repeat split; reflexivity.
Qed.

Lemma fit_check_shows_analysis_witness :
  let w := Sample.fitInput in
  let parse := fun _ : JSString => Some (ofAnalysisResult Sample2.weakFit) in
  let w' := exec (Source.handleFitCheck Source.part_000 parse
                    (Sample.answers (lit "{...}"))) w in
  step (ui w') = 2 /\
  analysis (ui w') = ofAnalysisResult Sample2.weakFit /\
  renderFitCheckResult (ui w') = Shown (view Sample2.weakFit) /\
  requests w' = requests w ++ [fitRequest (ui w)] /\
  alerts w' = alerts w /\
  console w' = console w.
Proof.
  apply (fit_check_shows_analysis Source.part_000
           (fun _ : JSString => Some (ofAnalysisResult Sample2.weakFit))
           (Sample.answers (lit "{...}")) Sample.fitInput
           (mkResponse (Some (lit "{...}"))) Sample2.weakFit).
  - simpl. auto.
  - reflexivity.
  - reflexivity.
  - reflexivity.
Defined.

(** ** What every handler run keeps *)

(** Whatever the service answers and whatever [JSON.parse] makes of it,
    each of the four pipeline handlers settles. No exception leaves the
    handler. Extract Experience and Compute Fit do nothing at all when
    their text is blank, and otherwise issue exactly their request;
    Draft Resume and Polish have no guard and always issue exactly
    theirs. Whenever a request was issued the loading flag is down on
    return. The raw input, the language, the recording cells and the
    recognizer are untouched. *)
Theorem handlers_settle
    (app : Source.App) (parse : JSString -> option JSValue) (ai : GenAI)
    (additionalInfo : JSString) (w : World) :
  In app Source.all ->
  settles (blank (rawText (ui w))) (extractRequest (ui w))
    (Source.handleProcessBrainstorm app ai) w /\
  settles (blank (jd (ui w))) (fitRequest (ui w))
    (Source.handleFitCheck app parse ai) w /\
  settles false (draftRequest (ui w))
    (Source.handleGenerateDraft app parse ai) w /\
  settles false (polishRequest (ui w) additionalInfo)
    (Source.handleFinalPolish app ai additionalInfo) w.
Proof.
  intros Hin. destruct w as [s rq cs al rr].
  each_source Hin; (split; [|split; [|split]]); unfold settles;
    unfold_handlers; unfold_monad;
    rewrite ?trim_truthy;
    repeat (match goal with
      | |- context [blank ?t] => destruct (blank t); cbn [negb]
      | |- context [ai ?r] => destruct (ai r) as [?resp|?e]
      | |- context [parse ?t] => destruct (parse t) as [?data|]
      | |- context [getProp ?d ?k] => destruct (getProp d k) as [?v|?e]
      end; unfold_monad);
    cbn; repeat split; reflexivity.
Qed.

Lemma handlers_settle_witness :
  let w := Sample.fitInput in
  settles false (extractRequest (ui w))
    (Source.handleProcessBrainstorm Source.part_000 Sample.unreachable) w /\
  settles false (fitRequest (ui w))
    (Source.handleFitCheck Source.part_000 Sample.parseEmptyObject
       Sample.unreachable) w /\
  settles false (draftRequest (ui w))
    (Source.handleGenerateDraft Source.part_000 Sample.parseEmptyObject
       Sample.unreachable) w /\
  settles false (polishRequest (ui w) [])
    (Source.handleFinalPolish Source.part_000 Sample.unreachable []) w.
Proof.
  apply (handlers_settle Source.part_000 Sample.parseEmptyObject
           Sample.unreachable [] Sample.fitInput).
  simpl. auto.
Defined.

(** ** The pipeline end to end *)

(** The four operations chained, with the job description typed in
    between, all calls resolving: each request carries what the earlier
    stages stored (the Fit and Draft requests the extracted experience
    and the typed job description, the Polish request the
    [resumeMarkdown] of the draft response), the four requests are
    issued in that order and nothing else is, the controller ends on
    step 4 holding every artifact, and no alert or console line was
    produced on the way. *)
Theorem pipeline_end_to_end
    (app : Source.App) (parse : JSString -> option JSValue) (ai : GenAI)
    (w : World) (jobDescription additionalInfo : JSString)
    (r1 r2 r3 r4 : Response) (a data m c : JSValue) :
  In app Source.all ->
  blank (rawText (ui w)) = false ->
  blank jobDescription = false ->
  ai (extractRequest (ui w)) = Normal r1 ->
  ai (mkRequest gemini_3_pro_preview
        (FitCheckPrompt (lang (ui w)) (orElse (text r1) []) jobDescription)
        (Some AnalysisSchema)) = Normal r2 ->
  parse (orElse (text r2) (lit "{}")) = Some a ->
  ai (mkRequest gemini_3_pro_preview
        (DraftPrompt (lang (ui w)) (orElse (text r1) []) jobDescription)
        (Some DraftSchema)) = Normal r3 ->
  parse (orElse (text r3) (lit "{}")) = Some data ->
  getProp data (lit "resumeMarkdown") = Normal m ->
  getProp data (lit "critiques") = Normal c ->
  ai (mkRequest gemini_3_pro_preview
        (PolishPrompt (lang (ui w)) m additionalInfo) None) = Normal r4 ->
  let w' :=
    exec (Source.handleFinalPolish app ai additionalInfo)
      (exec (Source.handleGenerateDraft app parse ai)
         (exec (Source.handleFitCheck app parse ai)
            (exec (Markup.onChangeJd jobDescription)
               (exec (Source.handleProcessBrainstorm app ai) w)))) in
  step (ui w') = 4 /\
  rawText (ui w') = rawText (ui w) /\
  experienceDoc (ui w') = orElse (text r1) [] /\
  jd (ui w') = jobDescription /\
  analysis (ui w') = a /\
  resumeDraft (ui w') = m /\
  critiques (ui w') = c /\
  finalResume (ui w') = orElse (text r4) [] /\
  loading (ui w') = false /\
  requests w' =
    requests w ++
    [extractRequest (ui w);
     mkRequest gemini_3_pro_preview
       (FitCheckPrompt (lang (ui w)) (orElse (text r1) []) jobDescription)
       (Some AnalysisSchema);
     mkRequest gemini_3_pro_preview
       (DraftPrompt (lang (ui w)) (orElse (text r1) []) jobDescription)
       (Some DraftSchema);
     mkRequest gemini_3_pro_preview
       (PolishPrompt (lang (ui w)) m additionalInfo) None] /\
  alerts w' = alerts w /\
  console w' = console w.
Proof.
  intros Hin Hb Hj H1 H2 Ha H3 Hd Hm Hc H4 w'.
  each_source Hin;
    cbn [Source.handleProcessBrainstorm Source.handleFitCheck
         Source.handleGenerateDraft Source.handleFinalPolish
         Source.part_000 Source.index_tsx] in w'.
  - eassert (E : w' = _).
    { subst w'. rewrite (part000_extract_resolved ai w r1 Hb H1).
      unfold Markup.onChangeJd, setJd, modify, exec at 4.
      cbn [snd ui requests console alerts recognitionRef].
      match goal with
      | |- context [exec (Part000.handleFitCheck parse ai) ?W] =>
          rewrite (part000_fit_resolved parse ai W r2 a Hj H2 Ha)
      end.
      match goal with
      | |- context [exec (Part000.handleGenerateDraft parse ai) ?W] =>
          rewrite (part000_draft_resolved parse ai W r3 data m c H3 Hd Hm Hc)
      end.
      match goal with
      | |- context [exec (Part000.handleFinalPolish ai additionalInfo) ?W] =>
          rewrite (part000_polish_resolved ai W additionalInfo r4 H4)
      end.
      reflexivity. }
    rewrite E. cbn [ui requests console alerts recognitionRef].
    rewrite <- !app_assoc. cbn. repeat split; reflexivity.
  - eassert (E : w' = _).
    { subst w'. rewrite (index_extract_resolved ai w r1 Hb H1).
      unfold Markup.onChangeJd, setJd, modify, exec at 4.
      cbn [snd ui requests console alerts recognitionRef].
      match goal with
      | |- context [exec (Index.handleFitCheck parse ai) ?W] =>
          rewrite (index_fit_resolved parse ai W r2 a Hj H2 Ha)
      end.
      match goal with
      | |- context [exec (Index.handleGenerateDraft parse ai) ?W] =>
          rewrite (index_draft_resolved parse ai W r3 data m c H3 Hd Hm Hc)
      end.
      match goal with
      | |- context [exec (Index.handleFinalPolish ai additionalInfo) ?W] =>
          rewrite (index_polish_resolved ai W additionalInfo r4 H4)
      end.
      reflexivity. }
    rewrite E. cbn [ui requests console alerts recognitionRef].
    rewrite <- !app_assoc. cbn. repeat split; reflexivity.
Qed.

Lemma pipeline_end_to_end_witness :
  let w := Sample.brainstorm in
  let ai := Sample.answers (lit "{...}") in
  let parse := fun _ : JSString => Some Sample2.draftData in
  let w' :=
    exec (Source.handleFinalPolish Source.part_000 ai [])
      (exec (Source.handleGenerateDraft Source.part_000 parse ai)
         (exec (Source.handleFitCheck Source.part_000 parse ai)
            (exec (Markup.onChangeJd (lit "Product manager"))
               (exec (Source.handleProcessBrainstorm Source.part_000 ai)
                  w)))) in
  step (ui w') = 4 /\
  rawText (ui w') = rawText (ui w) /\
  experienceDoc (ui w') = lit "{...}" /\
  jd (ui w') = lit "Product manager" /\
  analysis (ui w') = Sample2.draftData /\
  resumeDraft (ui w') = JString (lit "# Resume") /\
  critiques (ui w') = JArray [] /\
  finalResume (ui w') = lit "{...}" /\
  loading (ui w') = false /\
  requests w' =
    requests w ++
    [extractRequest (ui w);
     mkRequest gemini_3_pro_preview
       (FitCheckPrompt (lang (ui w)) (lit "{...}") (lit "Product manager"))
       (Some AnalysisSchema);
     mkRequest gemini_3_pro_preview
       (DraftPrompt (lang (ui w)) (lit "{...}") (lit "Product manager"))
       (Some DraftSchema);
     mkRequest gemini_3_pro_preview
       (PolishPrompt (lang (ui w)) (JString (lit "# Resume")) []) None] /\
  alerts w' = alerts w /\
  console w' = console w.
Proof.
  apply (pipeline_end_to_end Source.part_000
           (fun _ : JSString => Some Sample2.draftData)
           (Sample.answers (lit "{...}")) Sample.brainstorm
           (lit "Product manager") []
           (mkResponse (Some (lit "{...}"))) (mkResponse (Some (lit "{...}")))
           (mkResponse (Some (lit "{...}"))) (mkResponse (Some (lit "{...}")))
           Sample2.draftData Sample2.draftData
           (JString (lit "# Resume")) (JArray [])).
  - simpl. auto.
  - reflexivity.
  - reflexivity.
  - reflexivity.
  - reflexivity.
  - reflexivity.
  - reflexivity.
  - reflexivity.
  - reflexivity.
  - reflexivity.
  - reflexivity.
Defined.

Lemma polish_again_replaces_witness :
  let w := Sample.draft in
  let ai := Sample.answers (lit "Final") in
  let once := exec (Source.handleFinalPolish Source.part_000 ai (lit "a")) w in
  let back := exec (Source.backToDraft Source.part_000) once in
  step (ui back) = 3 /\
  ui (exec (Source.handleFinalPolish Source.part_000 ai (lit "b")) back) =
  ui (exec (Source.handleFinalPolish Source.part_000 ai (lit "b")) w).
Proof.
  apply (polish_again_replaces Source.part_000 (Sample.answers (lit "Final"))
           Sample.draft (lit "a") (lit "b")
           (mkResponse (Some (lit "Final"))) (mkResponse (Some (lit "Final")))).
  - simpl. auto.
  - reflexivity.
  - reflexivity.
Defined.

(** ** Speech recognition, continued *)

Lemma part000_partial_not_committed_witness :
  let w := Sample.brainstorm in
  let w' := exec (Part000.onresult Sample2.partialEvent) w in
  rawText (ui w') = rawText (ui w) /\
  interimText (ui w') = lit "hel".
Proof.
  apply (part000_partial_not_committed Sample2.partialEvent Sample.brainstorm).
  reflexivity.
Defined.

Lemma part000_partial_displayed_witness :
  Part000.textareaValue
    (ui (exec (Part000.onresult Sample2.partialEvent) Sample.brainstorm)) =
  lit "Built a checkout flow (hel...)".
Proof.
  apply (part000_partial_displayed Sample2.partialEvent Sample.brainstorm).
  - reflexivity.
  - discriminate.
Defined.

(** An event whose [resultIndex] is not below [results.length] delivers
    nothing: the loop body never runs. In [part_000] the raw input is
    then unchanged and the interim text is emptied; in [index.tsx] the
    handler still appends its separator, one space, to the raw input. *)
Theorem onresult_nothing_delivered (e : SpeechRecognitionEvent) (w : World) :
  List.length (results e) <= resultIndex e ->
  rawText (ui (exec (Part000.onresult e) w)) = rawText (ui w) /\
  interimText (ui (exec (Part000.onresult e) w)) = [] /\
  rawText (ui (exec (Index.onresult e) w)) = rawText (ui w) ++ lit " ".
Proof.
  intros Hlen.
  assert (Hd : delivered e = []).
  { unfold delivered. apply skipn_all2. exact Hlen. }
  rewrite part000_onresult_eq, index_onresult_eq.
  unfold committedBlock, finalSegments, partialSegments. rewrite Hd.
  cbn. rewrite !app_nil_r. auto.
Qed.

Lemma onresult_nothing_delivered_witness :
  let w := Sample.brainstorm in
  rawText (ui (exec (Part000.onresult Sample2.emptyEvent) w)) = rawText (ui w) /\
  interimText (ui (exec (Part000.onresult Sample2.emptyEvent) w)) = [] /\
  rawText (ui (exec (Index.onresult Sample2.emptyEvent) w)) =
    rawText (ui w) ++ lit " ".
Proof.
  apply (onresult_nothing_delivered Sample2.emptyEvent Sample.brainstorm).
  simpl. lia.
Defined.

(** The microphone button of [index.tsx], whose effect depends on
    [lang] alone and so keeps one recognizer across presses: pressing
    the button twice brings the recording flag back and touches
    neither the raw input, the step nor the requests, and the
    recognizer received the two calls, start and stop in the order of
    the flag. In either file, where the browser has no recognizer
    ([recognitionRef] stays [null], the effect creates none) one press
    still flips the flag, so the button shows a recording that does not
    exist. *)
Theorem toggle_recording_twice (w : World) (calls : list RecognitionCall) :
  recognitionRef w = Some calls ->
  let once := exec Index.toggleRecording w in
  let twice := exec Index.toggleRecording once in
  isRecording (ui once) = negb (isRecording (ui w)) /\
  isRecording (ui twice) = isRecording (ui w) /\
  rawText (ui twice) = rawText (ui w) /\
  step (ui twice) = step (ui w) /\
  requests twice = requests w /\
  recognitionRef twice =
    Some (calls ++
          (if isRecording (ui w) then [RecStop; RecStart]
           else [RecStart; RecStop])) /\
  (forall (app : Source.App) (v : World),
     In app Source.all ->
     recognitionRef v = None ->
     isRecording (ui (exec (Source.toggleRecording app) v)) =
       negb (isRecording (ui v)) /\
     rawText (ui (exec (Source.toggleRecording app) v)) = rawText (ui v) /\
     recognitionRef (exec (Source.toggleRecording app) v) = None).
Proof.
  intros Href. destruct w as [s rq cs al rr]. cbn [recognitionRef] in Href.
  subst rr. unfold_handlers; unfold_monad.
  destruct (isRecording s) eqn:Hrec; cbn; rewrite ?Hrec; cbn;
    rewrite <- ?app_assoc; do 6 (split; [reflexivity|]);
    intros app v Hin Hnone; destruct v as [s' rq' cs' al' rr'];
    cbn [recognitionRef] in Hnone; subst rr';
    each_source Hin; unfold_handlers; unfold_monad;
    destruct (isRecording s'); cbn; auto.
Qed.

Lemma toggle_recording_twice_witness :
  let w := Sample.recording in
  let once := exec Index.toggleRecording w in
  let twice := exec Index.toggleRecording once in
  isRecording (ui once) = false /\
  isRecording (ui twice) = true /\
  rawText (ui twice) = rawText (ui w) /\
  step (ui twice) = step (ui w) /\
  requests twice = requests w /\
  recognitionRef twice = Some [RecStart; RecStop; RecStart] /\
  (forall (app : Source.App) (v : World),
     In app Source.all ->
     recognitionRef v = None ->
     isRecording (ui (exec (Source.toggleRecording app) v)) =
       negb (isRecording (ui v)) /\
     rawText (ui (exec (Source.toggleRecording app) v)) = rawText (ui v) /\
     recognitionRef (exec (Source.toggleRecording app) v) = None).
Proof.
  apply (toggle_recording_twice Sample.recording [RecStart]).
  reflexivity.
Defined.

(** ** Progress indicator, text fields and buttons *)

(** The progress bar shows four labels in order, the English ones or,
    when the language is [zh], the Chinese ones, and highlights a
    prefix of them, as many as the step index plus one and never more
    than four: with five steps and four labels, the Draft step and the
    Final step show the same bar, all four labels highlighted. *)
Theorem progress_highlights_prefix (st : State) :
  map fst (Markup.renderProgress st) =
    match lang st with
    | zh => Markup.labelsZh
    | en => Markup.labels
    end /\
  map snd (Markup.renderProgress st) =
    repeat true (Nat.min (S (step st)) 4) ++
    repeat false (4 - Nat.min (S (step st)) 4) /\
  (3 <= step st ->
   map snd (Markup.renderProgress st) = [true; true; true; true]).
Proof.
  unfold Markup.renderProgress, Markup.labels, Markup.labelsZh.
  cbn [Markup.indexed map fst snd nth].
  destruct (lang st);
    destruct (step st) as [|[|[|[|n]]]]; cbn; repeat split; auto;
    intros; lia.
Qed.

Lemma number_lt_finite_false (q r : Q) :
  number_lt (Finite q) (Finite r) = false <-> (r <= q)%Q.
Proof.
  unfold number_lt, Qlt_bool. rewrite negb_false_iff. apply Qle_bool_iff.
Qed.

(** The badge and the alternatives block of the Fit Check view agree:
    a green badge (score above 75) never comes with alternatives, and
    for a finite score a red badge (score at most 50) always does; a
    score between 50 and 60 has an orange badge with alternatives, one
    from 60 to 75 an orange badge without. A score that is NaN gets the
    red badge and no alternatives. *)
Theorem badge_and_alternatives_agree (a : AnalysisResult) :
  (badge (view a) = Green -> alternativePaths (view a) = None) /\
  (forall q : Q, score a = Finite q ->
     (badge (view a) = Red ->
      alternativePaths (view a) = Some (alternatives a)) /\
     (badge (view a) = Orange ->
      (alternativePaths (view a) = Some (alternatives a) <-> (q < 60)%Q))) /\
  (score a = NaN ->
   badge (view a) = Red /\ alternativePaths (view a) = None).
Proof.
  unfold view; cbn [badge alternativePaths]. unfold number_gt, num.
  split; [|split].
  - destruct (score a) as [q| | |]; cbn; try discriminate; try reflexivity.
    destruct (Qlt_bool (inject_Z 75) q) eqn:Hg.
    + intros _.
      destruct (Qlt_bool q (inject_Z 60)) eqn:Hl; [|reflexivity].
      apply (number_lt_finite (inject_Z 75) q) in Hg.
      apply (number_lt_finite q (inject_Z 60)) in Hl.
      pose proof (Qlt_trans _ _ _ Hg Hl) as Habs.
      unfold Qlt in Habs. cbn in Habs. lia.
    + destruct (Qlt_bool (inject_Z 50) q); discriminate.
  - intros q Hq. rewrite Hq.
    change (number_lt (Finite (inject_Z 75)) (Finite q))
      with (Qlt_bool (inject_Z 75) q).
    change (number_lt (Finite (inject_Z 50)) (Finite q))
      with (Qlt_bool (inject_Z 50) q).
    destruct (Qlt_bool (inject_Z 75) q) eqn:Hg;
      [split; discriminate|].
    destruct (Qlt_bool (inject_Z 50) q) eqn:Ho.
    + split; [discriminate|]. intros _.
      rewrite <- (number_lt_finite q (inject_Z 60)).
      destruct (number_lt (Finite q) (Finite (inject_Z 60)));
        split; congruence.
    + split; [|discriminate]. intros _.
      apply (number_lt_finite_false (inject_Z 50) q) in Ho.
      assert (Hl : number_lt (Finite q) (Finite (inject_Z 60)) = true).
      { apply number_lt_finite. apply (Qle_lt_trans _ _ _ Ho).
        unfold Qlt. cbn. lia. }
      rewrite Hl. reflexivity.
  - intros Hn. rewrite Hn. cbn. auto.
Qed.

Lemma badge_and_alternatives_agree_orange_example :
  badge (view Sample2.weakFit) = Orange /\
  alternativePaths (view Sample2.weakFit) = Some [lit "Data analyst"].
Proof. split; reflexivity. Qed.

(** Feeding the textarea its own displayed value, as an edit event
    does. In [index.tsx] the displayed value is the raw input, so the
    state is unchanged. In [part_000] that holds only while no partial
    segment is displayed; while one is, the displayed value carries the
    decorated partial text, and the edit stores it in the raw input. *)
Theorem textarea_round_trip (w : World) :
  ui (exec (Markup.onChangeRawText (Index.textareaValue (ui w))) w) = ui w /\
  (interimText (ui w) = [] ->
   ui (exec (Markup.onChangeRawText (Part000.textareaValue (ui w))) w) = ui w) /\
  (interimText (ui w) <> [] ->
   rawText (ui (exec (Markup.onChangeRawText (Part000.textareaValue (ui w))) w))
   = rawText (ui w) ++ lit " (" ++ interimText (ui w) ++ lit "...)").
Proof.
  destruct w as [s rq cs al rr].
  unfold Markup.onChangeRawText, Index.textareaValue, Part000.textareaValue.
  unfold_monad. cbn [rawText with_rawText].
  split; [apply with_rawText_same|]. split.
  - intros Hnone. rewrite Hnone. cbn [strTruthy].
    rewrite app_nil_r. apply with_rawText_same.
  - intros Hsome. destruct (interimText s); [contradiction|]. reflexivity.
Qed.

Lemma textarea_round_trip_witness :
  let w := Sample.recording in
  ui (exec (Markup.onChangeRawText (Index.textareaValue (ui w))) w) = ui w /\
  (interimText (ui w) = [] ->
   ui (exec (Markup.onChangeRawText (Part000.textareaValue (ui w))) w) = ui w) /\
  (interimText (ui w) <> [] ->
   rawText (ui (exec (Markup.onChangeRawText (Part000.textareaValue (ui w))) w))
   = lit "Built a checkout flow  (used Rea...)").
Proof.
  exact (textarea_round_trip Sample.recording).
Defined.

Lemma fit_not_blank_issued (app : Source.App)
    (parse : JSString -> option JSValue) (ai : GenAI) (w : World) :
  In app Source.all ->
  blank (jd (ui w)) = false ->
  issued (fitRequest (ui w)) w (exec (Source.handleFitCheck app parse ai) w).
Proof.
  intros Hin Hb; destruct w as [s rq cs al rr]; cbn [ui] in *;
    each_source Hin; unfold_handlers; unfold_monad;
    rewrite trim_truthy, Hb; cbn [negb];
    destruct (ai _); unfold_monad; try reflexivity;
    destruct (parse _); reflexivity.
Qed.

(** The [disabled] attribute of the two buttons that start a call
    agrees with the guard of their handlers: the button is enabled
    exactly when a click issues the request. *)
Theorem buttons_enabled_iff_call_issued
    (app : Source.App) (parse : JSString -> option JSValue) (ai : GenAI)
    (w : World) :
  In app Source.all ->
  (Markup.organizeDisabled (ui w) = false <->
   issued (extractRequest (ui w)) w
     (exec (Source.handleProcessBrainstorm app ai) w)) /\
  (Markup.fitCheckDisabled (ui w) = false <->
   issued (fitRequest (ui w)) w
     (exec (Source.handleFitCheck app parse ai) w)).
Proof.
  intros Hin. unfold Markup.organizeDisabled, Markup.fitCheckDisabled.
  rewrite !trim_truthy, !negb_involutive. split; split.
  - apply extract_not_blank_issued; assumption.
  - apply extract_issued_not_blank; assumption.
  - apply fit_not_blank_issued; assumption.
  - apply fit_issued_not_blank; assumption.
Qed.

Lemma buttons_enabled_iff_call_issued_witness :
  let w := Sample.fitInput in
  (Markup.organizeDisabled (ui w) = false <->
   issued (extractRequest (ui w)) w
     (exec (Source.handleProcessBrainstorm Source.part_000
              Sample.unreachable) w)) /\
  (Markup.fitCheckDisabled (ui w) = false <->
   issued (fitRequest (ui w)) w
     (exec (Source.handleFitCheck Source.part_000 Sample.parseEmptyObject
              Sample.unreachable) w)).
Proof.
  apply (buttons_enabled_iff_call_issued Source.part_000
           Sample.parseEmptyObject Sample.unreachable Sample.fitInput).
  simpl. auto.
Defined.

(** ** File upload *)

Ltac unfold_upload :=
  lazy beta iota zeta delta
    [Upload.FromIndex.handleFileUpload Upload.FromIndex.onload
     Upload.FromPart000.onloadVision Upload.FromPart000.onloadText
     Upload.detached Upload.awaitRead] in *.

Lemma split_without_separator (sep : N) (s : JSString) :
  ~ In sep s -> Upload.split sep s = [s].
Proof.
  induction s as [|c r IH]; intros Hnot; cbn [Upload.split]; [reflexivity|].
  destruct (N.eqb_spec c sep) as [->|Hne].
  - exfalso. apply Hnot. left. reflexivity.
  - rewrite IH; [reflexivity|]. intros Hin. apply Hnot. right. exact Hin.
Qed.

Lemma split_at_first_separator (sep : N) (h p : JSString) :
  ~ In sep h -> Upload.split sep (h ++ sep :: p) = h :: Upload.split sep p.
Proof.
  induction h as [|c h IH]; intros Hnot; cbn [app Upload.split].
  - rewrite N.eqb_refl. reflexivity.
  - destruct (N.eqb_spec c sep) as [->|Hne].
    + exfalso. apply Hnot. left. reflexivity.
    + rewrite IH; [reflexivity|]. intros Hin. apply Hnot. right. exact Hin.
Qed.

(** The payload the upload sends to the vision call: for a data URL
    made of a header and a payload without commas,
    [split(',')[1]] is the payload; for a result without any comma it
    is [undefined]. *)
Theorem base64_of_data_url (header payload : JSString) :
  ~ In Upload.comma header ->
  ~ In Upload.comma payload ->
  Upload.base64Of (header ++ Upload.comma :: payload) = Some payload /\
  Upload.base64Of header = None.
Proof.
  intros Hh Hp. unfold Upload.base64Of. split.
  - rewrite (split_at_first_separator _ _ _ Hh).
    rewrite (split_without_separator _ _ Hp). reflexivity.
  - rewrite (split_without_separator _ _ Hh). reflexivity.
Qed.

Lemma base64_of_data_url_witness :
  Upload.base64Of (lit "data:image/png;base64" ++ Upload.comma :: lit "iVBORw0KGgo=")
    = Some (lit "iVBORw0KGgo=") /\
  Upload.base64Of (lit "data:image/png;base64") = None.
Proof.
  apply (base64_of_data_url (lit "data:image/png;base64") (lit "iVBORw0KGgo=")).
  - vm_compute. intuition discriminate.
  - vm_compute. intuition discriminate.
Defined.

(** [handleFileUpload] of [index.tsx] on a file whose type does not
    start with "image/" (a PDF is one) that reads as text: a line break
    and the text are appended to the raw input, the loading flag is
    down, and nothing is logged or alerted. *)
Theorem index_upload_text_appended
    (vision : Upload.VisionAI) (file : Upload.File) (rest : list Upload.File)
    (fileText : JSString) (w : World) :
  Upload.startsWith (Upload.fileType file) (lit "image/") = false ->
  Upload.asText file = Upload.ReadOk fileText ->
  let w' := exec (Upload.FromIndex.handleFileUpload vision
                    (Some (file :: rest))) w in
  rawText (ui w') = rawText (ui w) ++ Upload.newline ++ fileText /\
  loading (ui w') = false /\
  console w' = console w /\
  alerts w' = alerts w.
Proof.
  intros Htype Hread. destruct w as [s rq cs al rr].
  unfold_upload; unfold_monad. rewrite Htype, Hread. cbn. auto.
Qed.

Lemma index_upload_text_appended_witness :
  let w := Sample.brainstorm in
  let w' := exec (Upload.FromIndex.handleFileUpload Sample2.blind
                    (Some [Sample2.notes])) w in
  rawText (ui w') =
    rawText (ui w) ++ Upload.newline ++ lit "Shipped a billing service" /\
  loading (ui w') = false /\
  console w' = console w /\
  alerts w' = alerts w.
Proof.
  apply (index_upload_text_appended Sample2.blind Sample2.notes []
           (lit "Shipped a billing service") Sample.brainstorm).
  - reflexivity.
  - reflexivity.
Defined.

(** The same upload when reading the text fails: the error is logged,
    the loading flag is down, the raw input is as it was, and no alert
    tells the user. *)
Theorem index_upload_read_failure
    (vision : Upload.VisionAI) (file : Upload.File) (rest : list Upload.File)
    (e : JSError) (w : World) :
  Upload.startsWith (Upload.fileType file) (lit "image/") = false ->
  Upload.asText file = Upload.ReadFailed e ->
  let w' := exec (Upload.FromIndex.handleFileUpload vision
                    (Some (file :: rest))) w in
  rawText (ui w') = rawText (ui w) /\
  loading (ui w') = false /\
  console w' = console w ++ [LoggedError e] /\
  alerts w' = alerts w.
Proof.
  intros Htype Hread. destruct w as [s rq cs al rr].
  unfold_upload; unfold_monad. rewrite Htype, Hread. cbn. auto.
Qed.

Lemma index_upload_read_failure_witness :
  let file := Upload.mkFile (lit "cv.pdf") (lit "application/pdf")
                (Upload.ReadFailed TypeError) (Upload.ReadFailed TypeError) in
  let w := Sample.brainstorm in
  let w' := exec (Upload.FromIndex.handleFileUpload Sample2.blind
                    (Some [file])) w in
  rawText (ui w') = rawText (ui w) /\
  loading (ui w') = false /\
  console w' = console w ++ [LoggedError TypeError] /\
  alerts w' = alerts w.
Proof.
  apply (index_upload_read_failure Sample2.blind
           (Upload.mkFile (lit "cv.pdf") (lit "application/pdf")
              (Upload.ReadFailed TypeError) (Upload.ReadFailed TypeError))
           [] TypeError Sample.brainstorm).
  - reflexivity.
  - reflexivity.
Defined.

(** [handleFileUpload] of [index.tsx] on an image whose vision call
    resolves: a line break and [response.text] are appended to the raw
    input and the loading flag is down. The text is appended whatever
    it is: a response without text appends the word "undefined". *)
Theorem index_upload_image_appended
    (vision : Upload.VisionAI) (file : Upload.File) (rest : list Upload.File)
    (result : JSString) (resp : Response) (w : World) :
  Upload.startsWith (Upload.fileType file) (lit "image/") = true ->
  Upload.asDataURL file = Upload.ReadOk result ->
  vision (Upload.mkVision (Upload.base64Of result) (Upload.fileType file)
            Upload.ImagePrompt) = Normal resp ->
  let w' := exec (Upload.FromIndex.handleFileUpload vision
                    (Some (file :: rest))) w in
  rawText (ui w') =
    rawText (ui w) ++ Upload.newline ++ Upload.toStringOpt (text resp) /\
  (text resp = None ->
   rawText (ui w') = rawText (ui w) ++ Upload.newline ++ lit "undefined") /\
  loading (ui w') = false /\
  console w' = console w /\
  alerts w' = alerts w.
Proof.
  intros Htype Hread Hok. destruct w as [s rq cs al rr].
  unfold_upload; unfold_monad. rewrite Htype, Hread.
  unfold_monad. rewrite Hok. cbn -[lit].
  repeat split; auto. intros ->. reflexivity.
Qed.

Lemma index_upload_image_appended_witness :
  let w := Sample.brainstorm in
  let vision : Upload.VisionAI := fun _ => Normal (mkResponse None) in
  let w' := exec (Upload.FromIndex.handleFileUpload vision
                    (Some [Sample2.png])) w in
  rawText (ui w') = rawText (ui w) ++ Upload.newline ++ lit "undefined" /\
  (@None JSString = None ->
   rawText (ui w') = rawText (ui w) ++ Upload.newline ++ lit "undefined") /\
  loading (ui w') = false /\
  console w' = console w /\
  alerts w' = alerts w.
Proof.
  apply (index_upload_image_appended
           (fun _ => Normal (mkResponse None)) Sample2.png []
           (lit "data:image/png;base64,iVBORw0KGgo=") (mkResponse None)
           Sample.brainstorm).
  - reflexivity.
  - reflexivity.
  - reflexivity.
Defined.

(** [handleFileUpload] of [index.tsx] on an image whose vision call
    rejects, or whose data URL cannot be read: the handler itself
    completes, nothing is logged by it and no alert is raised, the raw
    input is as it was, and the loading flag stays up: the [await] sits
    in the reader callback, outside every [try] block. *)
Theorem index_upload_image_failure_keeps_loading
    (vision : Upload.VisionAI) (file : Upload.File) (rest : list Upload.File)
    (w : World) :
  Upload.startsWith (Upload.fileType file) (lit "image/") = true ->
  (exists e, Upload.asDataURL file = Upload.ReadFailed e) \/
  (exists result e,
     Upload.asDataURL file = Upload.ReadOk result /\
     vision (Upload.mkVision (Upload.base64Of result) (Upload.fileType file)
               Upload.ImagePrompt) = Throw e) ->
  let run := Upload.FromIndex.handleFileUpload vision (Some (file :: rest)) in
  fst (run w) = Normal tt /\
  loading (ui (exec run w)) = true /\
  rawText (ui (exec run w)) = rawText (ui w) /\
  console (exec run w) = console w /\
  alerts (exec run w) = alerts w.
Proof.
  intros Htype Hfail. destruct w as [s rq cs al rr].
  destruct Hfail as [[e Hread] | (result & e & Hread & Hrej)];
    unfold_upload; unfold_monad; rewrite Htype, Hread; unfold_monad;
    rewrite ?Hrej; cbn; auto.
Qed.

Lemma index_upload_image_failure_keeps_loading_witness :
  let run := Upload.FromIndex.handleFileUpload Sample2.blind
               (Some [Sample2.png]) in
  let w := Sample.brainstorm in
  fst (run w) = Normal tt /\
  loading (ui (exec run w)) = true /\
  rawText (ui (exec run w)) = rawText (ui w) /\
  console (exec run w) = console w /\
  alerts (exec run w) = alerts w.
Proof.
  apply (index_upload_image_failure_keeps_loading Sample2.blind Sample2.png []
           Sample.brainstorm).
  - reflexivity.
  - right. exists (lit "data:image/png;base64,iVBORw0KGgo=").
    exists (ApiError "fetch failed"). split; reflexivity.
Defined.

(** Whatever file is chosen and however reading and the vision call
    end, [handleFileUpload] of [index.tsx] touches the raw input, the
    loading flag and the console only: the step index, the other
    artifacts, the language, the requests of the pipeline and the
    alerts are as before. With no file chosen it does nothing at all. *)
Theorem index_upload_keeps_pipeline
    (vision : Upload.VisionAI) (files : option (list Upload.File))
    (w : World) :
  let run := Upload.FromIndex.handleFileUpload vision files in
  step (ui (exec run w)) = step (ui w) /\
  lang (ui (exec run w)) = lang (ui w) /\
  experienceDoc (ui (exec run w)) = experienceDoc (ui w) /\
  jd (ui (exec run w)) = jd (ui w) /\
  analysis (ui (exec run w)) = analysis (ui w) /\
  resumeDraft (ui (exec run w)) = resumeDraft (ui w) /\
  critiques (ui (exec run w)) = critiques (ui w) /\
  finalResume (ui (exec run w)) = finalResume (ui w) /\
  requests (exec run w) = requests w /\
  alerts (exec run w) = alerts w /\
  ((files = None \/ files = Some []) -> run w = (Normal tt, w)).
Proof.
  destruct w as [s rq cs al rr].
  destruct files as [[|file rest]|]; unfold_upload; unfold_monad.
  - cbn. repeat split; auto.
  - destruct (Upload.startsWith (Upload.fileType file) (lit "image/")).
    + destruct (Upload.asDataURL file) as [result|e]; unfold_monad.
      * destruct (vision _); cbn; repeat split; auto;
          intros [H|H]; discriminate H.
      * cbn. repeat split; auto; intros [H|H]; discriminate H.
    + destruct (Upload.asText file) as [t|e]; cbn; repeat split; auto;
        intros [H|H]; discriminate H.
  - cbn. repeat split; auto.
Qed.

(** The reader callback of the PDF and image branch of [part_000]:
    when the vision call resolves, a line break and the response text
    (nothing for a response without text) are appended to the raw
    input; when it rejects, the error is logged, an alert in the
    language of the interface is raised and the raw input is as it was.
    Either way the loading flag is down and the step is unchanged. *)
Theorem part000_vision_onload
    (vision : Upload.VisionAI) (l : Language) (file : Upload.File)
    (result : JSString) (w : World) :
  let req := Upload.mkVision (Upload.base64Of result) (Upload.fileType file)
               (Upload.FilePrompt
                  (str_eqb (Upload.fileType file) (lit "application/pdf")) l) in
  let w' := exec (Upload.FromPart000.onloadVision vision l file result) w in
  loading (ui w') = false /\
  step (ui w') = step (ui w) /\
  (forall resp, vision req = Normal resp ->
     rawText (ui w') =
       rawText (ui w) ++ Upload.newline ++ orElse (text resp) [] /\
     console w' = console w /\
     alerts w' = alerts w) /\
  (forall e, vision req = Throw e ->
     rawText (ui w') = rawText (ui w) /\
     console w' = console w ++ [LoggedError e] /\
     alerts w' = alerts w ++ [Upload.FromPart000.parseFailedMessage l]).
Proof.
  destruct w as [s rq cs al rr].
  unfold_upload; unfold_monad.
  destruct (vision _) as [resp|e];
    cbn -[lit orElse Upload.FromPart000.parseFailedMessage];
    repeat split; auto; congruence.
Qed.

(** The reader callback of the text branch of [part_000]: a line break
    and the file text are appended, the loading flag is down. Uploads
    accumulate: two files in a row leave both texts in the raw input,
    in the order of the uploads. *)
Theorem part000_text_uploads_accumulate (first second : JSString) (w : World) :
  let once := exec (Upload.FromPart000.onloadText first) w in
  let twice := exec (Upload.FromPart000.onloadText second) once in
  rawText (ui once) = rawText (ui w) ++ Upload.newline ++ first /\
  loading (ui once) = false /\
  rawText (ui twice) =
    rawText (ui w) ++ Upload.newline ++ first ++ Upload.newline ++ second /\
  step (ui twice) = step (ui w) /\
  alerts twice = alerts w.
Proof.
  destruct w as [s rq cs al rr]. unfold_upload; unfold_monad.
  cbn. rewrite <- !app_assoc. cbn. auto.
Qed.
